(** * larq_bnn.py: the keyword-spotting training script

    A shallow embedding of [src/larq_bnn.py].  The script is a straight
    line of calls: it reads a list of command names, scans one directory
    per command for '.wav' files, splits the (path, label) pairs, turns
    every file into a spectrogram, builds a binarized CNN, trains it and
    saves it.

    What the script itself computes (path joining, the directory scan, the
    label bookkeeping, the pad/truncate to 16000 samples, the layer stack,
    the order of the calls) is modelled as executable definitions.  What the
    libraries compute (floating-point arithmetic, WAV decoding, the random
    split, training, serialization) enters through the [Library] interface. *)

From stdpp Require Import gmap strings list sorting.
From Stdlib Require Import ZArith QArith Qcanon Lia.

Set Default Proof Using "Type".
Local Open Scope string_scope.
Local Open Scope list_scope.
Local Open Scope nat_scope.

(** ** Python strings and POSIX paths *)

Module Py.

(** [s.endswith(suffix)] and [s.startswith(prefix)], on the characters. *)
Definition chars (s : string) : list Ascii.ascii := String.list_ascii_of_string s.

Definition endswith (s suffix : string) : bool :=
  bool_decide (chars suffix `suffix_of` chars s).

Definition startswith (s pre : string) : bool :=
  bool_decide (chars pre `prefix_of` chars s).

(** [not s]: the empty string is falsy. *)
Definition is_empty (s : string) : bool :=
  match s with EmptyString => true | _ => false end.

(** [enumerate(xs)], counting from [start]. *)
Fixpoint enumerate_from {A} (start : nat) (xs : list A) : list (nat * A) :=
  match xs with
  | [] => []
  | x :: xs' => (start, x) :: enumerate_from (S start) xs'
  end.

Definition enumerate {A} (xs : list A) : list (nat * A) := enumerate_from 0 xs.

End Py.

Module Os.

Definition sep : string := "/".

(** [posixpath.join(a, b)] with one component [b]: an absolute [b] replaces
    [a]; an empty [a], or one that already ends with the separator, is
    followed by [b] directly; otherwise the separator goes in between. *)
Definition path_join (a b : string) : string :=
  if Py.startswith b sep then b
  else if Py.is_empty a || Py.endswith a sep then a +:+ b
  else a +:+ sep +:+ b.

End Os.

(** ** The file system *)

(** A path names a regular file with its content, or a directory with the
    names [os.listdir] returns for it, in the order it returns them. *)
Inductive node :=
| File (content : string)
| Dir (entries : list string).

Abbreviation filesystem := (gmap string node).

Definition fs_exists (fs : filesystem) (p : string) : bool :=
  match fs !! p with Some _ => true | None => false end.

Definition fs_isdir (fs : filesystem) (p : string) : bool :=
  match fs !! p with Some (Dir _) => true | _ => false end.

Definition fs_listdir (fs : filesystem) (p : string) : list string :=
  match fs !! p with Some (Dir names) => names | _ => [] end.

(** ** The Keras model the script assembles (lines 103-162) *)

Record quant_params := QuantParams {
  input_quantizer : string;
  kernel_quantizer : string;
  kernel_constraint : string
}.

Inductive layer :=
| Input (shape : list nat)
| QuantConv2D (filters kernel_size : nat) (padding : string) (q : quant_params)
| Activation (name : string)
| MaxPooling2D (pool_size : nat)
| Flatten
| QuantDense (units : nat) (q : quant_params).

Definition create_binary_model (input_shape : list nat) (num_classes : nat)
  : list layer :=
  let quant_params := QuantParams "ste_sign" "ste_sign" "weight_clip" in
  [ Input input_shape;
    QuantConv2D 32 3 "same" quant_params; Activation "relu"; MaxPooling2D 2;
    QuantConv2D 64 3 "same" quant_params; Activation "relu"; MaxPooling2D 2;
    Flatten;
    QuantDense 128 quant_params; Activation "relu";
    QuantDense num_classes quant_params; Activation "softmax" ].

Record compiled_model := Compiled {
  layers : list layer;
  optimizer : string;
  loss : string;
  metrics : list string
}.

(** ** What the script prints, what it calls, how it fails *)

Inductive message :=
| MsgNumGpus                                   (* line 10 *)
| MsgCommands (commands : list string)         (* line 16 *)
| MsgEmptyDirectory (command : string)         (* line 44 *)
| MsgMissingCommand (command : string)         (* line 49 *)
| MsgTotalSamples (n : nat)                    (* line 54 *)
| MsgConverting                                (* line 89 *)
| MsgTrainShape (shape : list nat)             (* line 99 *)
| MsgValShape (shape : list nat)               (* line 100 *)
| MsgInputShape (shape : list nat)             (* line 151 *)
| MsgNumClasses (n : nat)                      (* line 152 *)
| MsgSaved.                                    (* line 177 *)

Inductive event :=
| EPrint (m : message)
| EOpen (path : string)                        (* open(path, 'r') *)
| EListdir (path : string)                     (* os.listdir *)
| ESplit (n : nat)                             (* train_test_split on n samples *)
| EReadFile (path : string)                    (* tf.io.read_file *)
| EStft (path : string)                        (* tf.signal.stft *)
| EStack (n : nat)                             (* tf.stack *)
| EBuild (model : list layer)                  (* keras.models.Sequential and its layers *)
| ECompile
| ESummary
| EFit
| ESave (path : string).                       (* model.save *)

Inductive exn :=
| OSError (path : string)                      (* open / tf.io.read_file on a missing file *)
| ValueError_no_samples                        (* line 57 *)
| SplitError                                   (* raised by train_test_split *)
| DecodeError (path : string)                  (* tf.audio.decode_wav *)
| SqueezeError (path : string)                 (* tf.squeeze on a dimension that is not 1 *)
| ZerosError                                   (* tf.zeros with a negative dimension *)
| StackError                                   (* tf.stack on unequal shapes *)
| FitError.                                    (* raised by model.fit *)

Record world := World { fs : filesystem; log : list event }.

Inductive result (A : Type) :=
| Ok (a : A)
| Raise (e : exn).
Arguments Ok {A} a.
Arguments Raise {A} e.

(** State (the world) and exceptions. *)
Definition M (A : Type) : Type := world -> result A * world.

Definition ret {A} (a : A) : M A := fun w => (Ok a, w).

Definition bind {A B} (m : M A) (k : A -> M B) : M B :=
  fun w => match m w with
           | (Ok a, w') => k a w'
           | (Raise e, w') => (Raise e, w')
           end.

Definition raise {A} (e : exn) : M A := fun w => (Raise e, w).

Definition emit (e : event) : M unit :=
  fun w => (Ok tt, World (fs w) (log w ++ [e])).

Definition print (m : message) : M unit := emit (EPrint m).

Definition get_fs : M filesystem := fun w => (Ok (fs w), w).

Definition write_file (p : string) (content : string) : M unit :=
  fun w => (Ok tt, World (<[p := File content]> (fs w)) (log w)).

Declare Scope script_scope.
Delimit Scope script_scope with script.
Notation "x <- m ;; k" := (bind m (fun x => k))
  (at level 100, m at next level, right associativity) : script_scope.
Notation "m ;;; k" := (bind m (fun _ => k))
  (at level 100, right associativity) : script_scope.
Local Open Scope script_scope.

(** A [for] loop whose body updates the local variables [s]. *)
Fixpoint for_each {A S} (xs : list A) (body : A -> S -> M S) (s : S) : M S :=
  match xs with
  | [] => ret s
  | x :: xs' => s' <- body x s ;; for_each xs' body s'
  end.

Definition os_path_exists (p : string) : M bool :=
  fs0 <- get_fs ;; ret (fs_exists fs0 p).

Definition os_path_isdir (p : string) : M bool :=
  fs0 <- get_fs ;; ret (fs_isdir fs0 p).

Definition os_listdir (p : string) : M (list string) :=
  emit (EListdir p) ;;; fs0 <- get_fs ;; ret (fs_listdir fs0 p).

(** ** load_audio_files (lines 26-50) *)

(** Lines 45-47, the body of the inner loop. *)
Definition append_sample (command_path : string) (label : nat) (file : string)
    (acc : list string * list nat) : M (list string * list nat) :=
  let '(audio_paths, labels) := acc in
  ret (audio_paths ++ [Os.path_join command_path file], labels ++ [label]).

(** Lines 40-49, the body of the outer loop. *)
Definition scan_command (dataset_path : string) (item : nat * string)
    (acc : list string * list nat) : M (list string * list nat) :=
  let '(label, command) := item in
  let command_path := Os.path_join dataset_path command in
  ex <- os_path_exists command_path ;;
  isd <- os_path_isdir command_path ;;
  if ex && isd then
    names <- os_listdir command_path ;;
    let wav_files := filter (fun f => Py.endswith f ".wav" = true) names in
    (if Nat.eqb (length wav_files) 0
     then print (MsgEmptyDirectory command) else ret tt) ;;;
    for_each wav_files (append_sample command_path label) acc
  else
    print (MsgMissingCommand command) ;;;
    ret acc.

Definition load_audio_files (commands : list string) (dataset_path : string)
  : M (list string * list nat) :=
  for_each (Py.enumerate commands) (scan_command dataset_path) ([], []).

(** ** The libraries *)

(** The operations the script takes from Python, TensorFlow, scikit-learn
    and Keras without looking inside.  [decode_wav] gives the number of
    channels and one row of samples per audio frame (shape
    [[length, channels]]); [hann n i] is entry [i] of the periodic Hann window
    of length [n]; [dft_bin k x] is bin [k] of the discrete Fourier transform
    of [x]; [train_test_split] and [fit] may raise. *)
Class Library := {
  sample : Type;
  zero : sample;
  cplx : Type;
  fmul : sample -> sample -> sample;
  hann : nat -> nat -> sample;
  dft_bin : nat -> list sample -> cplx;
  cabs : cplx -> sample;
  splitlines : string -> list string;
  decode_wav : string -> option (nat * list (list sample));
  train_test_split :
    list string -> list nat -> forall (test_size : Qc) (random_state : Z)
      (stratify : list nat),
      option (list string * list string * list nat * list nat);
  trained : Type;
  fit : compiled_model ->
        list (list (list (list sample))) -> list nat ->
        list (list (list (list sample))) -> list nat ->
        forall (epochs batch_size : nat), option trained;
  serialize : trained -> string
}.

Section Script.
Context `{Library}.

(** A rank-3 tensor: frames, frequency bins, channels. *)
Definition spectrogram : Type := list (list (list sample)).

(** [t] has shape [(a, b, c)]: [a] rows of [b] rows of [c] entries. *)
Definition has_shape3 (a b c : nat) (t : spectrogram) : Prop :=
  length t = a /\
  Forall (fun row => length row = b /\ Forall (fun e => length e = c) row) t.

(** The shape TensorFlow reports, read off the first row of each rank. *)
Definition shape3 (t : spectrogram) : list nat :=
  [length t; length (hd [] t); length (hd [] (hd [] t))].

(** *** tf.signal.stft *)

(** Modelled from the spec: the default [fft_length] of [tf.signal.stft],
    which is TensorFlow's and not in the repository: the smallest power of
    two that holds a frame (256 for a frame of 255 samples). *)
Definition enclosing_power_of_two (n : nat) : nat := 2 ^ Nat.log2_up n.

(** Modelled from the spec: the framing of [tf.signal.stft] (its
    [pad_end] is left False): the windows of [frame_length] samples that
    start every [frame_step] samples and fit in the signal, that is
    [1 + (n - frame_length) / frame_step] of them. *)
Definition frame (signal : list sample) (frame_length frame_step : nat)
  : list (list sample) :=
  let n := length signal in
  let num_frames :=
    if n <? frame_length then 0 else 1 + (n - frame_length) / frame_step in
  map (fun i => take frame_length (drop (i * frame_step) signal))
      (seq 0 num_frames).

(** Modelled from the spec: the real FFT inside [tf.signal.stft]: the
    input is cropped or zero-padded to [fft_length], and the bins
    [0 .. fft_length / 2] of the transform are kept; each bin's value is the
    library's. *)
Definition rfft (fft_length : nat) (x : list sample) : list cplx :=
  let padded := take fft_length x ++ replicate (fft_length - length x) zero in
  map (fun k => dft_bin k padded) (seq 0 (fft_length / 2 + 1)).

(** Modelled from the spec: [tf.signal.stft(signal, frame_length,
    frame_step)]: frame, multiply by the Hann window, transform. *)
Definition stft (signal : list sample) (frame_length frame_step : nat)
  : list (list cplx) :=
  let fft_length := enclosing_power_of_two frame_length in
  let window := map (hann frame_length) (seq 0 frame_length) in
  let framed := frame signal frame_length frame_step in
  map (fun fr => rfft fft_length (zip_with fmul fr window)) framed.

(** *** paths_to_spectrograms (lines 63-86) *)

Definition tf_io_read_file (path : string) : M string :=
  emit (EReadFile path) ;;;
  fs0 <- get_fs ;;
  match fs0 !! path with
  | Some (File content) => ret content
  | _ => raise (OSError path)
  end.

Definition tf_audio_decode_wav (path : string) (audio_binary : string)
  : M (nat * list (list sample)) :=
  match decode_wav audio_binary with
  | Some decoded => ret decoded
  | None => raise (DecodeError path)
  end.

(** [tf.squeeze(audio, axis=-1)]: only a last dimension of size 1 can go. *)
Definition tf_squeeze (path : string) (decoded : nat * list (list sample))
  : M (list sample) :=
  if Nat.eqb (fst decoded) 1 then ret (concat (snd decoded))
  else raise (SqueezeError path).

Definition tf_zeros (n : Z) : M (list sample) :=
  if (n <? 0)%Z then raise ZerosError
  else ret (replicate (Z.to_nat n) zero).

(** Lines 79-81: pad or truncate to one second. *)
Definition pad_or_truncate (audio : list sample) : M (list sample) :=
  let audio := take (Z.to_nat 16000) audio in
  zero_padding <- tf_zeros (16000 - Z.of_nat (length audio)) ;;
  ret (audio ++ zero_padding).

(** Lines 75-85, the body of the loop. *)
Definition append_spectrogram (path : string) (spectrograms : list spectrogram)
  : M (list spectrogram) :=
  audio_binary <- tf_io_read_file path ;;
  decoded <- tf_audio_decode_wav path audio_binary ;;
  audio <- tf_squeeze path decoded ;;
  audio <- pad_or_truncate audio ;;
  emit (EStft path) ;;;
  let spectrogram := stft audio 255 128 in
  let spectrogram := map (map cabs) spectrogram in
  let spectrogram := map (map (fun x => [x])) spectrogram in
  ret (spectrograms ++ [spectrogram]).

Definition paths_to_spectrograms (paths : list string) : M (list spectrogram) :=
  for_each paths append_spectrogram [].

(** *** The top level of the script *)

Definition DATASET_PATH : string := "speech-commands/".
Definition seed : Z := 42.

(** Lines 13-14. *)
Definition read_commands : M (list string) :=
  emit (EOpen "commands_list.txt") ;;;
  fs0 <- get_fs ;;
  match fs0 !! "commands_list.txt" with
  | Some (File content) => ret (splitlines content)
  | _ => raise (OSError "commands_list.txt")
  end.

Definition sklearn_train_test_split (audio_paths : list string)
    (labels : list nat)
  : M (list string * list string * list nat * list nat) :=
  emit (ESplit (length audio_paths)) ;;;
  match train_test_split audio_paths labels (Q2Qc (2 # 10))
          seed labels with
  | Some r => ret r
  | None => raise SplitError
  end.

(** [tf.stack]: the tensors must agree in shape. *)
Definition tf_stack (ts : list spectrogram) : M (list spectrogram) :=
  emit (EStack (length ts)) ;;;
  match ts with
  | [] => ret []
  | t :: rest =>
      if forallb (fun u => bool_decide (shape3 u = shape3 t)) rest
      then ret ts else raise StackError
  end.

(** [.shape] of a stacked tensor. *)
Definition stacked_shape (ts : list spectrogram) : list nat :=
  match ts with
  | [] => [0]
  | t :: _ => length ts :: shape3 t
  end.

Definition model_fit (model : compiled_model)
    (x : list spectrogram) (y : list nat)
    (val_x : list spectrogram) (val_y : list nat) : M trained :=
  emit EFit ;;;
  match fit model x y val_x val_y 20 32 with
  | Some t => ret t
  | None => raise FitError
  end.

Definition model_save (model : trained) (path : string) : M unit :=
  emit (ESave path) ;;;
  write_file path (serialize model).

Definition script : M unit :=
  print MsgNumGpus ;;;
  commands <- read_commands ;;
  print (MsgCommands commands) ;;;
  loaded <- load_audio_files commands DATASET_PATH ;;
  let '(audio_paths, labels) := loaded in
  print (MsgTotalSamples (length audio_paths)) ;;;
  (if Nat.eqb (length audio_paths) 0
   then raise ValueError_no_samples else ret tt) ;;;
  parts <- sklearn_train_test_split audio_paths labels ;;
  let '(train_paths, val_paths, train_labels, val_labels) := parts in
  print MsgConverting ;;;
  train_spectrograms <- paths_to_spectrograms train_paths ;;
  val_spectrograms <- paths_to_spectrograms val_paths ;;
  train_spectrograms <- tf_stack train_spectrograms ;;
  val_spectrograms <- tf_stack val_spectrograms ;;
  print (MsgTrainShape (stacked_shape train_spectrograms)) ;;;
  print (MsgValShape (stacked_shape val_spectrograms)) ;;;
  let input_shape := tail (stacked_shape train_spectrograms) in
  let num_classes := length commands in
  print (MsgInputShape input_shape) ;;;
  print (MsgNumClasses num_classes) ;;;
  let model := create_binary_model input_shape num_classes in
  emit (EBuild model) ;;;
  let model := Compiled model "adam" "sparse_categorical_crossentropy"
                        ["accuracy"] in
  emit ECompile ;;;
  emit ESummary ;;;
  history <- model_fit model train_spectrograms train_labels
                       val_spectrograms val_labels ;;
  model_save history "binary_kws_model.h5" ;;;
  print MsgSaved.

End Script.

(** ** The directory scan, as the specification words it *)

(** The names ending in '.wav' that a command's directory lists; none when
    the joined path is not an existing directory. *)
Definition wav_files_of (fs0 : filesystem) (dataset_path command : string)
  : list string :=
  let command_path := Os.path_join dataset_path command in
  if fs_isdir fs0 command_path
  then filter (fun f => Py.endswith f ".wav" = true) (fs_listdir fs0 command_path)
  else [].

(** One (joined path, index) pair per such name. *)
Definition expected_entries (fs0 : filesystem) (dataset_path : string)
    (item : nat * string) : list (string * nat) :=
  map (fun file =>
         (Os.path_join (Os.path_join dataset_path item.2) file, item.1))
      (wav_files_of fs0 dataset_path item.2).

Definition expected_samples (fs0 : filesystem) (commands : list string)
    (dataset_path : string) : list (string * nat) :=
  flat_map (expected_entries fs0 dataset_path) (Py.enumerate commands).

(** What scanning one command prints and calls. *)
Definition scan_events (fs0 : filesystem) (dataset_path command : string)
  : list event :=
  let command_path := Os.path_join dataset_path command in
  if fs_isdir fs0 command_path then
    EListdir command_path ::
    (if Nat.eqb (length (wav_files_of fs0 dataset_path command)) 0
     then [EPrint (MsgEmptyDirectory command)] else [])
  else [EPrint (MsgMissingCommand command)].

(** Dropping the command at position [i] moves every later label down by
    one; [relabel i] undoes that. *)
Definition relabel (i : nat) (label : nat) : nat :=
  if label <? i then label else S label.

(** ** The stages of the pipeline, read off the log *)

Inductive stage := Loading | Splitting | Converting | Building | Training | Saving.

Global Instance stage_eq_dec : EqDecision stage.
Proof. solve_decision. Defined.

Definition stage_of (e : event) : option stage :=
  match e with
  | EOpen _ | EListdir _ => Some Loading
  | ESplit _ => Some Splitting
  | EReadFile _ | EStft _ | EStack _ => Some Converting
  | EBuild _ | ECompile => Some Building
  | EFit => Some Training
  | ESave _ => Some Saving
  | EPrint _ | ESummary => None
  end.

Definition is_stage (s : stage) (e : event) : bool :=
  bool_decide (stage_of e = Some s).

Definition occurs (s : stage) (l : list event) : bool := existsb (is_stage s) l.

(** Every event of stage [a] comes before every event of stage [b]. *)
Fixpoint before (a b : stage) (l : list event) : bool :=
  match l with
  | [] => true
  | e :: rest =>
      (negb (is_stage b e) || negb (occurs a rest)) && before a b rest
  end.

Fixpoint stages_in_order (order : list stage) (l : list event) : bool :=
  match order with
  | a :: (b :: _) as rest => before a b l && stages_in_order rest l
  | _ => true
  end.

(** The events of converting one file, and of a list of files. *)
Definition convert_events (paths : list string) : list event :=
  flat_map (fun p => [EReadFile p; EStft p]) paths.

(** The stages in the order the script runs them. *)
Definition rank (s : stage) : nat :=
  match s with
  | Loading => 0 | Splitting => 1 | Converting => 2 | Building => 3 | Training => 4 | Saving => 5
  end.

(** The ranks of the staged events never go down, starting from [lo]. *)
Fixpoint nondecreasing (lo : nat) (l : list event) : bool :=
  match l with
  | [] => true
  | e :: rest =>
      match stage_of e with
      | None => nondecreasing lo rest
      | Some s => (lo <=? rank s) && nondecreasing (rank s) rest
      end
  end.

(** The path an event writes to. *)
Definition written_path (e : event) : option string :=
  match e with
  | ESave path => Some path
  | _ => None
  end.

(** The log of lines 10-54. *)
Definition loading_events (fs0 : filesystem) (commands : list string)
  : list event :=
  [EPrint MsgNumGpus; EOpen "commands_list.txt"; EPrint (MsgCommands commands)] ++
  flat_map (scan_events fs0 DATASET_PATH) commands ++
  [EPrint (MsgTotalSamples
             (length (expected_samples fs0 commands DATASET_PATH)))].

(** The log of lines 94-177. *)
Definition training_events `{Library} (train val : list spectrogram)
    (num_classes : nat) : list event :=
  let input_shape := tail (stacked_shape train) in
  [EStack (length train); EStack (length val);
   EPrint (MsgTrainShape (stacked_shape train));
   EPrint (MsgValShape (stacked_shape val));
   EPrint (MsgInputShape input_shape);
   EPrint (MsgNumClasses num_classes);
   EBuild (create_binary_model input_shape num_classes);
   ECompile; ESummary; EFit;
   ESave "binary_kws_model.h5"; EPrint MsgSaved].

(** The log of a run that ends without an exception. *)
Definition successful_log `{Library} (fs0 : filesystem)
    (commands train_paths val_paths : list string)
    (train val : list spectrogram) : list event :=
  loading_events fs0 commands ++
  ESplit (length (expected_samples fs0 commands DATASET_PATH)) ::
  EPrint MsgConverting ::
  convert_events train_paths ++ convert_events val_paths ++
  training_events train val (length commands).

(** ** More of the scan and of the conversion, for the further properties *)

(** The command a warning of the scan is about. *)
Definition warned_command (e : event) : option string :=
  match e with
  | EPrint (MsgEmptyDirectory command) => Some command
  | EPrint (MsgMissingCommand command) => Some command
  | _ => None
  end.

(** A name with no separator in it, as [os.listdir] gives them. *)
Definition no_slash (s : string) : Prop :=
  Ascii.ascii_of_nat 47 ∉ Py.chars s.

Global Instance no_slash_dec (s : string) : Decision (no_slash s).
Proof. unfold no_slash. apply _. Defined.

(** What [posixpath.join] puts before a relative second component. *)
Definition dir_prefix (a : string) : string :=
  if Py.is_empty a || Py.endswith a Os.sep then a else a +:+ Os.sep.

(** The clip lines 79-81 hand to the STFT. *)
Definition normalized `{Library} (audio : list sample) : list sample :=
  take (Z.to_nat 16000) audio ++ replicate (Z.to_nat 16000 - length audio) zero.

(** Lines 82-84 on a clip. *)
Definition spectrogram_of `{Library} (audio : list sample) : spectrogram :=
  map (map (fun x => [x])) (map (map cabs) (stft (normalized audio) 255 128)).

(** The exception lines 75-77 raise for a path, if any. *)
Definition conversion_error `{Library} (fs0 : filesystem) (path : string)
  : option exn :=
  match fs0 !! path with
  | Some (File content) =>
      match decode_wav content with
      | Some (channels, rows) =>
          if Nat.eqb channels 1 then None else Some (SqueezeError path)
      | None => Some (DecodeError path)
      end
  | _ => Some (OSError path)
  end.

(** The samples lines 75-77 read from a path that holds a one-channel clip. *)
Definition mono_clip `{Library} (fs0 : filesystem) (path : string)
  : option (list sample) :=
  match fs0 !! path with
  | Some (File content) =>
      match decode_wav content with
      | Some (channels, rows) =>
          if Nat.eqb channels 1 then Some (concat rows) else None
      | None => None
      end
  | _ => None
  end.

(** The path an event reads a clip from. *)
Definition read_path (e : event) : option string :=
  match e with
  | EReadFile path => Some path
  | _ => None
  end.

(** ** A small concrete installation, to run the script on *)

Module Demo.

Definition newline : Ascii.ascii := Ascii.ascii_of_nat 10.
Definition nl : string := String newline "".

(** Lines split at the newline character. *)
Fixpoint split_lines (cur s : string) : list string :=
  match s with
  | EmptyString => if Py.is_empty cur then [] else [cur]
  | String c rest =>
      if Ascii.eqb c newline then cur :: split_lines "" rest
      else split_lines (cur +:+ String c "") rest
  end.

(** Every fifth sample goes to the validation side. *)
Definition every_fifth {A} (xs : list A) : list A * list A :=
  let indexed := Py.enumerate xs in
  (map snd (filter (fun p => p.1 mod 5 <> 0) indexed),
   map snd (filter (fun p => p.1 mod 5 = 0) indexed)).

Definition split (paths : list string) (labels : list nat)
    (test_size : Qc) (random_state : Z) (stratify : list nat)
  : option (list string * list string * list nat * list nat) :=
  let '(train_paths, val_paths) := every_fifth paths in
  let '(train_labels, val_labels) := every_fifth labels in
  if Nat.eqb (length train_paths) 0 then None
  else Some (train_paths, val_paths, train_labels, val_labels).

(** Integer samples; a file's bytes are its mono samples; a file that
    starts with 'S' decodes to two channels. *)
Definition decode (content : string) : option (nat * list (list Z)) :=
  let samples := map (fun c => Z.of_nat (Ascii.nat_of_ascii c)) (Py.chars content) in
  if Py.startswith content "S"
  then Some (2, map (fun x => [x; x]) samples)
  else Some (1, map (fun x => [x]) samples).

#[local] Instance library : Library := {|
  sample := Z;
  zero := 0%Z;
  cplx := Z;
  fmul := Z.mul;
  hann := fun _ _ => 1%Z;
  dft_bin := fun k x => nth k x 0%Z;
  cabs := Z.abs;
  splitlines := split_lines "";
  decode_wav := decode;
  train_test_split := split;
  trained := compiled_model;
  fit := fun m _ _ _ _ _ _ => Some m;
  serialize := fun _ => "model"
|}.

(** Four commands: 'yes' and 'no' have five clips each, 'up' has no
    directory, and the directory of 'down' holds no '.wav' file. *)
Definition commands_txt : string :=
  "yes" +:+ nl +:+ "up" +:+ nl +:+ "down" +:+ nl +:+ "no" +:+ nl.

Definition files : filesystem :=
  list_to_map
    [ ("commands_list.txt", File commands_txt);
      ("speech-commands/yes",
        Dir ["a.wav"; "b.wav"; "notes.txt"; "c.wav"; "d.wav"; "e.wav"]);
      ("speech-commands/down", Dir ["README.md"; "clip.WAV"]);
      ("speech-commands/no", Dir ["f.wav"; "g.wav"; "h.wav"; "i.wav"; "j.wav"]);
      ("speech-commands/yes/a.wav", File "abc");
      ("speech-commands/yes/b.wav", File "bcd");
      ("speech-commands/yes/c.wav", File "cde");
      ("speech-commands/yes/d.wav", File "def");
      ("speech-commands/yes/e.wav", File "efg");
      ("speech-commands/yes/notes.txt", File "notes");
      ("speech-commands/down/README.md", File "readme");
      ("speech-commands/down/clip.WAV", File "xyz");
      ("speech-commands/no/f.wav", File "fgh");
      ("speech-commands/no/g.wav", File "ghi");
      ("speech-commands/no/h.wav", File "hij");
      ("speech-commands/no/i.wav", File "ijk");
      ("speech-commands/no/j.wav", File "jkl") ].

(** The same commands with no clip anywhere. *)
Definition no_clips : filesystem :=
  list_to_map
    [ ("commands_list.txt", File commands_txt);
      ("speech-commands/down", Dir ["README.md"; "clip.WAV"]) ].

Definition commands : list string := ["yes"; "up"; "down"; "no"].

(** The world after the script has run on [files]. *)
Definition final : world := (script (World files [])).2.

End Demo.

(** * Proofs *)

(** ** Strings and paths *)

Lemma chars_app (a b : string) : Py.chars (a +:+ b) = Py.chars a ++ Py.chars b.
Proof.
  unfold Py.chars. induction a as [|c a IH]; simpl; [done | by rewrite IH].
Qed.

Lemma endswith_app (a b suffix : string) :
  Py.endswith b suffix = true -> Py.endswith (a +:+ b) suffix = true.
Proof.
  unfold Py.endswith. rewrite !bool_decide_eq_true, chars_app.
  apply suffix_app_r.
Qed.

Lemma endswith_path_join (a b suffix : string) :
  Py.endswith b suffix = true -> Py.endswith (Os.path_join a b) suffix = true.
Proof.
  intros Hb. unfold Os.path_join.
  destruct (Py.startswith b Os.sep); [done|].
  destruct (Py.is_empty a || Py.endswith a Os.sep).
  - by apply endswith_app.
  - by do 2 apply endswith_app.
Qed.

(** ** Running the directory scan *)

Lemma enumerate_from_length {A} (k : nat) (xs : list A) :
  length (Py.enumerate_from k xs) = length xs.
Proof. revert k. induction xs as [|x xs IH]; intros k; simpl; auto. Qed.

Lemma enumerate_from_lookup {A} (k : nat) (xs : list A) (j : nat) (item : nat * A) :
  Py.enumerate_from k xs !! j = Some item <->
  item.1 = k + j /\ xs !! j = Some item.2.
Proof.
  revert k j. induction xs as [|x xs IH]; intros k j; simpl.
  - split; [done | by intros [_ ?]].
  - destruct j as [|j]; simpl.
    + destruct item as [i y]; simpl. split.
      * intros [= <- <-]. split; [lia | done].
      * intros [-> [= ->]]. do 2 f_equal. lia.
    + rewrite IH. split; intros [-> ?]; split; auto; lia.
Qed.

Lemma enumerate_from_app {A} (k : nat) (xs ys : list A) :
  Py.enumerate_from k (xs ++ ys) =
  Py.enumerate_from k xs ++ Py.enumerate_from (k + length xs) ys.
Proof.
  revert k. induction xs as [|x xs IH]; intros k; simpl.
  - by rewrite Nat.add_0_r.
  - rewrite IH. do 3 f_equal. lia.
Qed.

Lemma fs_isdir_exists (fs0 : filesystem) (p : string) :
  fs_exists fs0 p && fs_isdir fs0 p = fs_isdir fs0 p.
Proof. unfold fs_exists, fs_isdir. by destruct (fs0 !! p) as [[]|]. Qed.

Lemma inner_loop_run (command_path : string) (label : nat)
    (files : list string) (audio_paths : list string) (labels : list nat)
    (w : world) :
  for_each files (append_sample command_path label) (audio_paths, labels) w =
  (Ok (audio_paths ++ map (Os.path_join command_path) files,
       labels ++ map (fun _ => label) files), w).
Proof.
  revert audio_paths labels.
  induction files as [|f files IH]; intros audio_paths labels; simpl.
  - by rewrite !app_nil_r.
  - unfold bind at 1. simpl. rewrite IH. by rewrite <- !app_assoc.
Qed.

Lemma scan_command_run (dataset_path : string) (item : nat * string)
    (audio_paths : list string) (labels : list nat) (w : world) :
  scan_command dataset_path item (audio_paths, labels) w =
  (Ok (audio_paths ++ map fst (expected_entries (fs w) dataset_path item),
       labels ++ map snd (expected_entries (fs w) dataset_path item)),
   World (fs w) (log w ++ scan_events (fs w) dataset_path item.2)).
Proof.
  destruct item as [label command]. destruct w as [f l].
  unfold scan_command, expected_entries, scan_events, wav_files_of,
    os_path_exists, os_path_isdir, os_listdir, get_fs, print, emit, bind, ret.
  simpl. rewrite fs_isdir_exists.
  destruct (fs_isdir f (Os.path_join dataset_path command)) eqn:Hdir; simpl.
  - destruct (Nat.eqb _ 0) eqn:Hlen; simpl;
      rewrite inner_loop_run, !map_map; simpl;
      by rewrite <- ?app_assoc.
  - by rewrite !app_nil_r.
Qed.

Lemma outer_loop_run (dataset_path : string) (commands : list string)
    (k : nat) (audio_paths : list string) (labels : list nat) (w : world) :
  for_each (Py.enumerate_from k commands) (scan_command dataset_path)
    (audio_paths, labels) w =
  (Ok (audio_paths ++
         map fst (flat_map (expected_entries (fs w) dataset_path)
                           (Py.enumerate_from k commands)),
       labels ++
         map snd (flat_map (expected_entries (fs w) dataset_path)
                           (Py.enumerate_from k commands))),
   World (fs w) (log w ++ flat_map (scan_events (fs w) dataset_path) commands)).
Proof.
  revert k audio_paths labels w.
  induction commands as [|c commands IH]; intros k audio_paths labels w;
    cbn [for_each Py.enumerate_from flat_map].
  - rewrite !app_nil_r. by destruct w.
  - unfold bind at 1. rewrite scan_command_run, IH. cbn [fs log snd].
    by rewrite !map_app, <- !app_assoc.
Qed.

Lemma load_audio_files_run (commands : list string) (dataset_path : string)
    (w : world) :
  load_audio_files commands dataset_path w =
  (Ok (map fst (expected_samples (fs w) commands dataset_path),
       map snd (expected_samples (fs w) commands dataset_path)),
   World (fs w) (log w ++ flat_map (scan_events (fs w) dataset_path) commands)).
Proof. unfold load_audio_files, Py.enumerate. by rewrite outer_loop_run. Qed.

(** ** What the scan returns *)

Lemma elem_of_wav_files_of (fs0 : filesystem) (dataset_path command file : string) :
  file ∈ wav_files_of fs0 dataset_path command <->
  fs_isdir fs0 (Os.path_join dataset_path command) = true /\
  file ∈ fs_listdir fs0 (Os.path_join dataset_path command) /\
  Py.endswith file ".wav" = true.
Proof.
  unfold wav_files_of.
  destruct (fs_isdir fs0 (Os.path_join dataset_path command)).
  - rewrite list_elem_of_filter. tauto.
  - rewrite elem_of_nil. split; [done | by intros [? _]].
Qed.

Lemma expected_samples_lookup (fs0 : filesystem) (commands : list string)
    (dataset_path : string) (p : string) (i : nat) :
  (p, i) ∈ expected_samples fs0 commands dataset_path <->
  exists command file,
    commands !! i = Some command /\
    file ∈ wav_files_of fs0 dataset_path command /\
    p = Os.path_join (Os.path_join dataset_path command) file.
Proof.
  unfold expected_samples, Py.enumerate.
  rewrite list_elem_of_In, in_flat_map. setoid_rewrite <- list_elem_of_In.
  split.
  - intros ([j c] & Hin & Hp).
    apply list_elem_of_lookup in Hin as [k Hk].
    apply enumerate_from_lookup in Hk as [Hj Hc]. simpl in *. subst j.
    unfold expected_entries in Hp. simpl in Hp.
    apply list_elem_of_fmap in Hp as (file & [= -> ->] & Hfile).
    by exists c, file.
  - intros (c & file & Hc & Hfile & ->).
    exists (i, c). split.
    + apply list_elem_of_lookup. exists i.
      by apply enumerate_from_lookup.
    + unfold expected_entries. simpl.
      apply list_elem_of_fmap. by exists file.
Qed.

Lemma zip_fst_snd {A B} (l : list (A * B)) : zip (map fst l) (map snd l) = l.
Proof. induction l as [|[a b] l IH]; simpl; [done | by rewrite IH]. Qed.

Lemma lookup_fst_snd {A B} (l : list (A * B)) (k : nat) (a : A) (b : B) :
  map fst l !! k = Some a -> map snd l !! k = Some b -> l !! k = Some (a, b).
Proof.
  rewrite !list_lookup_fmap. destruct (l !! k) as [[a' b']|]; simpl; [|done].
  by intros [= ->] [= ->].
Qed.

Lemma expected_samples_length (fs0 : filesystem) (dataset_path : string)
    (commands : list string) (k : nat) :
  length (flat_map (expected_entries fs0 dataset_path)
                   (Py.enumerate_from k commands)) =
  sum_list (map (fun c => length (wav_files_of fs0 dataset_path c)) commands).
Proof.
  revert k. induction commands as [|c commands IH]; intros k; simpl; [done|].
  rewrite length_app, IH. unfold expected_entries at 1. simpl.
  by rewrite length_map.
Qed.

(** Dropping a command that contributes nothing leaves the paths as they
    are and shifts the later labels by one. *)
Lemma expected_entries_shift (fs0 : filesystem) (dataset_path : string)
    (commands : list string) (i k : nat) :
  i <= k ->
  flat_map (expected_entries fs0 dataset_path) (Py.enumerate_from (S k) commands) =
  map (fun e => (e.1, relabel i e.2))
      (flat_map (expected_entries fs0 dataset_path) (Py.enumerate_from k commands)).
Proof.
  revert k. induction commands as [|c commands IH]; intros k Hk; simpl; [done|].
  rewrite map_app, <- IH by lia. f_equal.
  unfold expected_entries. simpl. rewrite map_map. apply map_ext.
  intros file. simpl. unfold relabel.
  destruct (Nat.ltb_spec k i); [lia | done].
Qed.

Lemma expected_entries_keep (fs0 : filesystem) (dataset_path : string)
    (commands : list string) (i : nat) :
  length commands <= i ->
  flat_map (expected_entries fs0 dataset_path) (Py.enumerate_from 0 commands) =
  map (fun e => (e.1, relabel i e.2))
      (flat_map (expected_entries fs0 dataset_path) (Py.enumerate_from 0 commands)).
Proof.
  intros Hi. rewrite <- (map_id (flat_map _ _)) at 1.
  apply map_ext_in. intros [p l] Hin. simpl. unfold relabel.
  apply list_elem_of_In, expected_samples_lookup in Hin
    as (c & file & Hc & _ & _).
  apply lookup_lt_Some in Hc.
  destruct (Nat.ltb_spec l i); [done | lia].
Qed.

Lemma expected_samples_skip (fs0 : filesystem) (dataset_path : string)
    (earlier later : list string) (command : string) :
  wav_files_of fs0 dataset_path command = [] ->
  expected_samples fs0 (earlier ++ command :: later) dataset_path =
  map (fun e => (e.1, relabel (length earlier) e.2))
      (expected_samples fs0 (earlier ++ later) dataset_path).
Proof.
  intros Hnone. unfold expected_samples, Py.enumerate.
  rewrite !enumerate_from_app, !flat_map_app, map_app. simpl.
  unfold expected_entries at 2. simpl. rewrite Hnone. simpl.
  rewrite <- expected_entries_keep by done.
  f_equal. by rewrite <- expected_entries_shift.
Qed.

Lemma wav_files_of_none (fs0 : filesystem) (dataset_path command : string) :
  fs_isdir fs0 (Os.path_join dataset_path command) = false \/
  Forall (fun f => Py.endswith f ".wav" = false)
         (fs_listdir fs0 (Os.path_join dataset_path command)) ->
  wav_files_of fs0 dataset_path command = [].
Proof.
  intros Hnone. apply elem_of_nil_inv. intros file Hin.
  apply elem_of_wav_files_of in Hin as (Hdir & Hin & Hwav).
  destruct Hnone as [Hno | Hall]; [congruence|].
  rewrite Forall_forall in Hall. specialize (Hall file Hin). congruence.
Qed.

Lemma map_fst_relabel {A} (i : nat) (l : list (A * nat)) :
  map fst (map (fun e => (e.1, relabel i e.2)) l) = map fst l.
Proof. rewrite map_map. by apply map_ext. Qed.

Lemma map_snd_relabel {A} (i : nat) (l : list (A * nat)) :
  map snd (map (fun e => (e.1, relabel i e.2)) l) = map (relabel i) (map snd l).
Proof. rewrite !map_map. by apply map_ext. Qed.

Lemma relabel_neq (i label : nat) : relabel i label <> i.
Proof. unfold relabel. destruct (Nat.ltb_spec label i); lia. Qed.

(** C8: for every commands list, dataset path and file system, the scan
    returns two lists of equal length; every label is below
    [len(commands)]; every path ends with '.wav'. *)
Theorem load_audio_files_invariants (commands : list string)
    (dataset_path : string) (w : world) :
  exists audio_paths labels w',
    load_audio_files commands dataset_path w = (Ok (audio_paths, labels), w') /\
    length audio_paths = length labels /\
    Forall (fun label => label < length commands) labels /\
    Forall (fun p => Py.endswith p ".wav" = true) audio_paths.
Proof.
  rewrite load_audio_files_run. do 3 eexists. split; [reflexivity|].
  split; [by rewrite !length_map|].
  split; apply Forall_forall; intros x Hx;
    apply list_elem_of_fmap in Hx as ([p i] & -> & Hin);
    apply expected_samples_lookup in Hin as (c & file & Hc & Hfile & Hp);
    simpl.
  - by apply lookup_lt_Some in Hc.
  - subst p. apply endswith_path_join.
    by apply elem_of_wav_files_of in Hfile as (_ & _ & ?).
Qed.

(** C2: the scan pairs files with labels.  The two lists have equal
    length; every name ending in '.wav' that the directory of the command at
    index [i] lists has its joined path at some position [k] of the first
    list with [i] at position [k] of the second; every position comes from
    such a name; and, zipped, the lists are exactly one entry per listed
    name, command after command. *)
Theorem load_audio_files_pairs_files_with_labels (commands : list string)
    (dataset_path : string) (w : world) :
  exists audio_paths labels w',
    load_audio_files commands dataset_path w = (Ok (audio_paths, labels), w') /\
    length audio_paths = length labels /\
    (forall i command file,
        commands !! i = Some command ->
        fs_isdir (fs w) (Os.path_join dataset_path command) = true ->
        file ∈ fs_listdir (fs w) (Os.path_join dataset_path command) ->
        Py.endswith file ".wav" = true ->
        exists k,
          audio_paths !! k =
            Some (Os.path_join (Os.path_join dataset_path command) file) /\
          labels !! k = Some i) /\
    (forall k p i,
        audio_paths !! k = Some p -> labels !! k = Some i ->
        exists command file,
          commands !! i = Some command /\
          fs_isdir (fs w) (Os.path_join dataset_path command) = true /\
          file ∈ fs_listdir (fs w) (Os.path_join dataset_path command) /\
          Py.endswith file ".wav" = true /\
          p = Os.path_join (Os.path_join dataset_path command) file) /\
    zip audio_paths labels = expected_samples (fs w) commands dataset_path /\
    length audio_paths =
      sum_list (map (fun c => length (wav_files_of (fs w) dataset_path c))
                    commands).
Proof.
  rewrite load_audio_files_run. do 3 eexists. split; [reflexivity|].
  split; [by rewrite !length_map|].
  split; [|split; [|split]].
  - intros i command file Hc Hdir Hin Hwav.
    assert ((Os.path_join (Os.path_join dataset_path command) file, i)
              ∈ expected_samples (fs w) commands dataset_path) as Hmem.
    { apply expected_samples_lookup. exists command, file.
      split; [done|]. split; [|done]. by apply elem_of_wav_files_of. }
    apply list_elem_of_lookup in Hmem as [k Hk]. exists k.
    rewrite !list_lookup_fmap, Hk. done.
  - intros k p i Hp Hi.
    pose proof (lookup_fst_snd _ _ _ _ Hp Hi) as Hk.
    apply list_elem_of_lookup_2, expected_samples_lookup in Hk
      as (command & file & Hc & Hfile & ->).
    apply elem_of_wav_files_of in Hfile as (? & ? & ?).
    by exists command, file.
  - apply zip_fst_snd.
  - rewrite length_map. apply expected_samples_length.
Qed.

(** C6: a command whose directory is missing, or lists no '.wav' name, is
    skipped with a warning.  The scan still returns; it returns the paths it
    returns without that command, with the labels of the later commands one
    higher; no entry carries the skipped command's label; the warning is
    among the events of the scan. *)
Theorem missing_or_empty_command_is_skipped (earlier later : list string)
    (command dataset_path : string) (w : world) :
  fs_isdir (fs w) (Os.path_join dataset_path command) = false \/
  Forall (fun f => Py.endswith f ".wav" = false)
         (fs_listdir (fs w) (Os.path_join dataset_path command)) ->
  exists audio_paths labels w' labels0 w0 events,
    load_audio_files (earlier ++ command :: later) dataset_path w =
      (Ok (audio_paths, labels), w') /\
    load_audio_files (earlier ++ later) dataset_path w =
      (Ok (audio_paths, labels0), w0) /\
    labels = map (relabel (length earlier)) labels0 /\
    (length earlier ∉ labels) /\
    fs w' = fs w /\
    log w' = log w ++ events /\
    EPrint (if fs_isdir (fs w) (Os.path_join dataset_path command)
            then MsgEmptyDirectory command
            else MsgMissingCommand command) ∈ events.
Proof.
  intros Hnone. apply wav_files_of_none in Hnone.
  rewrite !load_audio_files_run.
  rewrite (expected_samples_skip _ _ _ _ _ Hnone), map_fst_relabel,
    map_snd_relabel.
  eexists _, _, _, _, _, _.
  split; [reflexivity|]. split; [reflexivity|]. split; [reflexivity|].
  split.
  { intros Hin. apply list_elem_of_fmap in Hin as (e & He & _).
    symmetry in He. by apply relabel_neq in He. }
  split; [done|]. split; [done|].
  rewrite flat_map_app. apply elem_of_app. right. simpl.
  apply elem_of_app. left. unfold scan_events.
  destruct (fs_isdir (fs w) (Os.path_join dataset_path command)).
  - rewrite Hnone. simpl. apply list_elem_of_further, list_elem_of_here.
  - apply list_elem_of_here.
Qed.

Lemma missing_or_empty_command_is_skipped_witness :
  exists audio_paths labels w' labels0 w0 events,
    load_audio_files (["yes"] ++ "up" :: ["down"; "no"]) "speech-commands/"
                     (World Demo.files []) =
      (Ok (audio_paths, labels), w') /\
    load_audio_files (["yes"] ++ ["down"; "no"]) "speech-commands/"
                     (World Demo.files []) =
      (Ok (audio_paths, labels0), w0) /\
    labels = map (relabel 1) labels0 /\
    (1 ∉ labels) /\
    fs w' = Demo.files /\
    log w' = [] ++ events /\
    EPrint (MsgMissingCommand "up") ∈ events.
Proof.
  apply (missing_or_empty_command_is_skipped
           ["yes"] ["down"; "no"] "up" "speech-commands/" (World Demo.files [])).
  left. vm_compute. reflexivity.
Defined.

(** ** Spectrograms *)

Section Spectrograms.
Context `{Library}.

Lemma enclosing_power_of_two_255 : enclosing_power_of_two 255 = 256.
Proof. reflexivity. Qed.

Lemma frame_length_one_second (signal : list sample) :
  length signal = Z.to_nat 16000 -> length (frame signal 255 128) = 124.
Proof.
  intros Hlen. unfold frame. rewrite length_map, length_seq, Hlen.
  vm_compute. reflexivity.
Qed.

Lemma rfft_length (fft_length : nat) (x : list sample) :
  length (rfft fft_length x) = fft_length / 2 + 1.
Proof. unfold rfft. by rewrite length_map, length_seq. Qed.

Lemma stft_shape (signal : list sample) :
  length signal = Z.to_nat 16000 ->
  has_shape3 124 129 1
    (map (map (fun x => [x])) (map (map cabs) (stft signal 255 128))).
Proof.
  intros Hlen. unfold has_shape3, stft. split.
  - rewrite !length_map. by apply frame_length_one_second.
  - rewrite enclosing_power_of_two_255.
    rewrite !Forall_fmap. apply Forall_forall. intros fr _.
    unfold compose. split.
    + rewrite !length_map. rewrite rfft_length. reflexivity.
    + rewrite !Forall_fmap. apply Forall_forall. by intros x _.
Qed.

Lemma pad_or_truncate_run (audio : list sample) (w : world) :
  pad_or_truncate audio w =
  (Ok (take (Z.to_nat 16000) audio ++
       replicate (Z.to_nat 16000 - length audio) zero), w).
Proof.
  unfold pad_or_truncate, tf_zeros, bind, ret.
  rewrite length_take.
  destruct (Z.ltb_spec (16000 - Z.of_nat (Z.to_nat 16000 `min` length audio)) 0)
    as [Hneg | _]; [lia|].
  do 4 f_equal. lia.
Qed.

Lemma pad_or_truncate_length (audio : list sample) :
  length (take (Z.to_nat 16000) audio ++
          replicate (Z.to_nat 16000 - length audio) zero) = Z.to_nat 16000.
Proof. rewrite length_app, length_take, length_replicate. lia. Qed.

(** C9: lines 79-81 always return a clip of exactly 16000 samples: the
    first 16000 of a longer clip, a shorter clip followed by zeros, a clip
    of 16000 samples as it is; and the STFT of [append_spectrogram] is taken
    of that clip. *)
Theorem pad_or_truncate_normalizes :
  (forall (audio : list sample) (w : world),
      exists audio',
        pad_or_truncate audio w = (Ok audio', w) /\
        length audio' = Z.to_nat 16000 /\
        (Z.to_nat 16000 < length audio -> audio' = take (Z.to_nat 16000) audio) /\
        (length audio < Z.to_nat 16000 ->
         audio' = audio ++ replicate (Z.to_nat 16000 - length audio) zero) /\
        (length audio = Z.to_nat 16000 -> audio' = audio)) /\
  (forall (path : string) (spectrograms result : list spectrogram) (w w' : world),
      append_spectrogram path spectrograms w = (Ok result, w') ->
      exists content rows audio',
        fs w !! path = Some (File content) /\
        decode_wav content = Some (1, rows) /\
        pad_or_truncate (concat rows) w = (Ok audio', w) /\
        result = spectrograms ++
                 [map (map (fun x => [x])) (map (map cabs) (stft audio' 255 128))]).
Proof.
  split.
  - intros audio w. rewrite pad_or_truncate_run. eexists. split; [done|].
    split; [apply pad_or_truncate_length|].
    split; [|split]; intros Hlen.
    + replace (Z.to_nat 16000 - length audio) with 0 by lia.
      by rewrite app_nil_r.
    + by rewrite take_ge by lia.
    + replace (Z.to_nat 16000 - length audio) with 0 by lia.
      rewrite app_nil_r. by rewrite take_ge by lia.
  - intros path spectrograms result w w'.
    unfold append_spectrogram, tf_io_read_file, tf_audio_decode_wav,
      tf_squeeze, get_fs, emit.
    unfold bind at 1 2 3 4 5. cbn [fs log ret raise].
    destruct (fs w !! path) as [[content|]|] eqn:Hfile;
      cbn [ret raise]; try discriminate.
    destruct (decode_wav content) as [[channels rows]|] eqn:Hdec;
      cbn [ret raise fst snd]; try discriminate.
    destruct (Nat.eqb_spec channels 1) as [-> | _];
      cbn [ret raise]; try discriminate.
    unfold bind. rewrite !pad_or_truncate_run. cbn [ret]. intros [= <- <-].
    eexists content, rows, _. by rewrite pad_or_truncate_run.
Qed.

Lemma append_spectrogram_inv (path : string) (spectrograms : list spectrogram)
    (r : result (list spectrogram)) (w w' : world) :
  append_spectrogram path spectrograms w = (r, w') ->
  fs w' = fs w /\
  match r with
  | Ok result =>
      log w' = log w ++ [EReadFile path; EStft path] /\
      exists s, result = spectrograms ++ [s] /\ has_shape3 124 129 1 s
  | Raise e =>
      log w' = log w ++ [EReadFile path] /\ e <> ValueError_no_samples
  end.
Proof.
  unfold append_spectrogram, tf_io_read_file, tf_audio_decode_wav,
    tf_squeeze, get_fs, emit.
  unfold bind at 1 2 3 4 5. cbn [fs log ret raise].
  destruct (fs w !! path) as [[content|]|] eqn:Hfile; cbn [ret raise];
    try (intros [= <- <-]; by repeat split).
  destruct (decode_wav content) as [[channels rows]|] eqn:Hdec;
    cbn [ret raise fst snd]; try (intros [= <- <-]; by repeat split).
  destruct (Nat.eqb_spec channels 1) as [-> | _]; cbn [ret raise];
    try (intros [= <- <-]; by repeat split).
  unfold bind. rewrite !pad_or_truncate_run. cbn [ret fs log].
  intros [= <- <-]. cbn [fs log]. split; [done|].
  split; [by rewrite <- app_assoc|].
  eexists. split; [done|]. apply stft_shape, pad_or_truncate_length.
Qed.

Lemma spectrogram_loop_inv (paths : list string) (spectrograms : list spectrogram)
    (r : result (list spectrogram)) (w w' : world) :
  for_each paths append_spectrogram spectrograms w = (r, w') ->
  fs w' = fs w /\
  exists events,
    log w' = log w ++ events /\
    Forall (fun e => stage_of e = Some Converting) events /\
    match r with
    | Ok result =>
        events = convert_events paths /\
        exists new, result = spectrograms ++ new /\
                    length new = length paths /\
                    Forall (has_shape3 124 129 1) new
    | Raise e => e <> ValueError_no_samples
    end.
Proof.
  revert spectrograms w.
  induction paths as [|path paths IH]; intros spectrograms w;
    cbn [for_each].
  - intros [= <- <-]. split; [done|]. exists []. rewrite !app_nil_r.
    split; [done|]. split; [done|]. split; [done|].
    exists []. by rewrite app_nil_r.
  - unfold bind.
    destruct (append_spectrogram path spectrograms w) as [[result | e] w1]
      eqn:Hstep; apply append_spectrogram_inv in Hstep as [Hfs Hstep].
    + destruct Hstep as (Hlog & s & -> & Hshape).
      intros Hrest. apply IH in Hrest as (Hfs' & events & Hlog' & Hstage & Hr).
      split; [congruence|].
      exists ([EReadFile path; EStft path] ++ events).
      split; [by rewrite Hlog', Hlog, <- app_assoc|].
      split; [by repeat constructor|].
      destruct r as [result | e]; [|done].
      destruct Hr as (-> & new & -> & Hlen & Hall).
      split; [done|]. exists (s :: new).
      split; [by rewrite <- app_assoc|].
      split; [simpl; congruence | by constructor].
    + destruct Hstep as [Hlog Hne]. intros [= <- <-].
      split; [done|]. exists [EReadFile path].
      split; [done|]. split; [by repeat constructor | done].
Qed.

Lemma paths_to_spectrograms_inv (paths : list string)
    (r : result (list spectrogram)) (w w' : world) :
  paths_to_spectrograms paths w = (r, w') ->
  fs w' = fs w /\
  exists events,
    log w' = log w ++ events /\
    Forall (fun e => stage_of e = Some Converting) events /\
    match r with
    | Ok result =>
        events = convert_events paths /\
        length result = length paths /\
        Forall (has_shape3 124 129 1) result
    | Raise e => e <> ValueError_no_samples
    end.
Proof.
  intros Hrun. apply spectrogram_loop_inv in Hrun
    as (Hfs & events & Hlog & Hstage & Hr).
  split; [done|]. exists events. split; [done|]. split; [done|].
  destruct r as [result | e]; [|done].
  by destruct Hr as (-> & new & -> & Hlen & Hall).
Qed.

Lemma append_spectrogram_mono (path content : string)
    (rows : list (list sample)) (spectrograms : list spectrogram) (w : world) :
  fs w !! path = Some (File content) ->
  decode_wav content = Some (1, rows) ->
  exists s w',
    append_spectrogram path spectrograms w = (Ok (spectrograms ++ [s]), w') /\
    fs w' = fs w.
Proof.
  intros Hfile Hdec.
  unfold append_spectrogram, tf_io_read_file, tf_audio_decode_wav,
    tf_squeeze, get_fs, emit.
  unfold bind at 1 2 3 4 5. cbn [fs log ret raise].
  rewrite Hfile. cbn [ret]. rewrite Hdec. cbn [ret fst snd Nat.eqb].
  unfold bind. rewrite !pad_or_truncate_run. cbn [ret]. by eexists _, _.
Qed.

(** C4: every spectrogram [paths_to_spectrograms] returns has shape
    (124, 129, 1), whatever the length of the clip; and it returns one for
    every path when every path is a file that decodes to one channel. *)
Theorem spectrograms_have_fixed_shape (paths : list string) (w : world) :
  (forall result w',
      paths_to_spectrograms paths w = (Ok result, w') ->
      length result = length paths /\
      Forall (has_shape3 (1 + (Z.to_nat 16000 - 255) / 128) (256 / 2 + 1) 1)
             result) /\
  (Forall (fun p => exists content rows,
               fs w !! p = Some (File content) /\
               decode_wav content = Some (1, rows)) paths ->
   exists result w',
     paths_to_spectrograms paths w = (Ok result, w') /\
     length result = length paths /\
     Forall (has_shape3 124 129 1) result).
Proof.
  assert (forall result w',
             paths_to_spectrograms paths w = (Ok result, w') ->
             length result = length paths /\
             Forall (has_shape3 124 129 1) result) as Hshape.
  { intros result w' Hrun.
    apply paths_to_spectrograms_inv in Hrun as (_ & events & _ & _ & Hr).
    by destruct Hr as (_ & ? & ?). }
  split; [exact Hshape|].
  intros Hmono.
  enough (exists result w', paths_to_spectrograms paths w = (Ok result, w'))
    as (result & w' & Hrun).
  { exists result, w'. split; [done|]. by apply Hshape in Hrun. }
  unfold paths_to_spectrograms. generalize (@nil spectrogram) as acc.
  revert w Hshape Hmono. induction paths as [|p paths IH];
    intros w _ Hmono acc; cbn [for_each].
  - by eexists _, _.
  - inversion Hmono as [|? ? (content & rows & Hfile & Hdec) Hrest]; subst.
    destruct (append_spectrogram_mono p content rows acc w Hfile Hdec)
      as (s & w1 & Hstep & Hfs).
    unfold bind. rewrite Hstep. apply IH.
    + intros result w' Hrun.
      apply paths_to_spectrograms_inv in Hrun as (_ & events & _ & _ & Hr).
      by destruct Hr as (_ & ? & ?).
    + by rewrite Hfs.
Qed.

End Spectrograms.

(** ** Running the script *)

Lemma bind_unfold {A B} (m : M A) (k : A -> M B) (w : world) :
  bind m k w = match m w with
               | (Ok a, w') => k a w'
               | (Raise e, w') => (Raise e, w')
               end.
Proof. reflexivity. Qed.

Section Running.
Context `{Library}.

Lemma read_commands_run (w : world) :
  read_commands w =
  (match fs w !! "commands_list.txt" with
   | Some (File content) => Ok (splitlines content)
   | _ => Raise (OSError "commands_list.txt")
   end,
   World (fs w) (log w ++ [EOpen "commands_list.txt"])).
Proof.
  unfold read_commands, emit, get_fs, bind. cbn [fs log].
  by destruct (fs w !! "commands_list.txt") as [[]|].
Qed.

Lemma split_run (audio_paths : list string) (labels : list nat) (w : world) :
  sklearn_train_test_split audio_paths labels w =
  (match train_test_split audio_paths labels (Q2Qc (2 # 10)) seed labels with
   | Some parts => Ok parts
   | None => Raise SplitError
   end,
   World (fs w) (log w ++ [ESplit (length audio_paths)])).
Proof.
  unfold sklearn_train_test_split, emit, bind. cbn [fs log].
  by destruct (train_test_split _ _ _ _ _).
Qed.

Lemma has_shape3_shape3 (t : spectrogram) :
  has_shape3 124 129 1 t -> shape3 t = [124; 129; 1].
Proof.
  intros [Hlen Hrows]. unfold shape3. rewrite Hlen.
  destruct t as [|row t]; [discriminate|]. cbn [hd].
  apply Forall_cons_1 in Hrows as [[Hrow Hcells] _]. rewrite Hrow.
  destruct row as [|cell row]; [discriminate|]. cbn [hd].
  apply Forall_cons_1 in Hcells as [Hcell _]. by rewrite Hcell.
Qed.

Lemma tf_stack_run (ts : list spectrogram) (w : world) :
  Forall (has_shape3 124 129 1) ts ->
  tf_stack ts w = (Ok ts, World (fs w) (log w ++ [EStack (length ts)])).
Proof.
  intros Hall. unfold tf_stack, emit, bind. cbn [fs log].
  destruct ts as [|t rest]; [done|].
  apply Forall_cons_1 in Hall as [Ht Hrest].
  replace (forallb _ rest) with true; [done|].
  symmetry. apply forallb_forall. intros u Hu.
  apply bool_decide_eq_true.
  rewrite Forall_forall in Hrest.
  rewrite (has_shape3_shape3 t Ht).
  apply has_shape3_shape3, Hrest. by apply list_elem_of_In.
Qed.

Lemma model_fit_run (model : compiled_model) (x : list spectrogram)
    (y : list nat) (val_x : list spectrogram) (val_y : list nat) (w : world) :
  model_fit model x y val_x val_y w =
  (match fit model x y val_x val_y 20 32 with
   | Some t => Ok t
   | None => Raise FitError
   end,
   World (fs w) (log w ++ [EFit])).
Proof.
  unfold model_fit, emit, bind. cbn [fs log].
  by destruct (fit _ _ _ _ _ _ _).
Qed.

(** Bring a log to the form [e1 :: e2 :: l1 ++ e3 :: l2 ...]. *)
Ltac norm_log := repeat (progress cbn [app log fs] || rewrite <- app_assoc).
Ltac norm_log_in H :=
  repeat (progress cbn [app log fs] in H || rewrite <- app_assoc in H).

Lemma loading_events_app (f : filesystem) (commands : list string)
    (l : list event) :
  loading_events f commands ++ l =
  EPrint MsgNumGpus :: EOpen "commands_list.txt" ::
  EPrint (MsgCommands commands) ::
  flat_map (scan_events f DATASET_PATH) commands ++
  EPrint (MsgTotalSamples
            (length (expected_samples f commands DATASET_PATH))) :: l.
Proof. unfold loading_events. by norm_log. Qed.

(** Every way the script can end, on a file system [f] and an empty log. *)
Lemma script_outcome (f : filesystem) (r : result unit) (w' : world) :
  script (World f []) = (r, w') ->
  match f !! "commands_list.txt" with
  | Some (File content) =>
      let commands := splitlines content in
      let samples := expected_samples f commands DATASET_PATH in
      match samples with
      | [] =>
          r = Raise ValueError_no_samples /\
          w' = World f (loading_events f commands)
      | _ :: _ =>
          r <> Raise ValueError_no_samples /\
          exists later,
            log w' = loading_events f commands ++
                     ESplit (length samples) :: later /\
            (r = Ok tt ->
             exists train_paths val_paths train_labels val_labels
                    (train val : list spectrogram) model,
               train_test_split (map fst samples) (map snd samples)
                 (Q2Qc (2 # 10)) seed (map snd samples) =
                 Some (train_paths, val_paths, train_labels, val_labels) /\
               length train = length train_paths /\
               length val = length val_paths /\
               fs w' = <["binary_kws_model.h5" := File (serialize model)]> f /\
               later = EPrint MsgConverting ::
                       convert_events train_paths ++
                       convert_events val_paths ++
                       training_events train val (length commands))
      end
  | _ =>
      r = Raise (OSError "commands_list.txt") /\
      w' = World f [EPrint MsgNumGpus; EOpen "commands_list.txt"]
  end.
Proof.
  intros Hrun. unfold script, print in Hrun.
  rewrite bind_unfold in Hrun. cbn [emit fs log] in Hrun.
  rewrite bind_unfold, read_commands_run in Hrun. cbn [fs log] in Hrun.
  destruct (f !! "commands_list.txt") as [[content|]|] eqn:Hfile;
    try (by injection Hrun as <- <-).
  rewrite bind_unfold in Hrun. cbn [emit fs log] in Hrun.
  rewrite bind_unfold, load_audio_files_run in Hrun. cbn [fs log] in Hrun.
  rewrite bind_unfold in Hrun. cbn [emit fs log] in Hrun.
  rewrite bind_unfold, length_map in Hrun.
  cbv zeta.
  pose proof (loading_events_app f (splitlines content)) as Hload.
  destruct (expected_samples f (splitlines content) DATASET_PATH)
    as [|s samples] eqn:Hs.
  { cbn [length Nat.eqb raise] in Hrun. injection Hrun as <- <-.
    split; [done|]. f_equal.
    rewrite <- (app_nil_r (loading_events _ _)), Hload. by norm_log. }
  cbn [length Nat.eqb ret] in Hrun.
  rewrite bind_unfold, split_run in Hrun. rewrite length_map in Hrun.
  norm_log_in Hrun.
  destruct (train_test_split _ _ _ _ _)
    as [[[[train_paths val_paths] train_labels] val_labels]|] eqn:Hsplit.
  2:{ injection Hrun as <- <-. split; [done|]. exists [].
      by rewrite Hload. }
  rewrite bind_unfold in Hrun. cbn [emit fs log] in Hrun.
  rewrite bind_unfold in Hrun.
  destruct (paths_to_spectrograms train_paths _) as [[train|e] w1] eqn:Htrain;
    apply paths_to_spectrograms_inv in Htrain
      as (Hfs1 & ev1 & Hlog1 & Hst1 & Hr1); norm_log_in Hfs1;
    norm_log_in Hlog1.
  2:{ injection Hrun as <- <-. split; [congruence|].
      eexists. rewrite Hload, Hlog1. by split. }
  destruct Hr1 as (-> & Hlen1 & Hsh1).
  rewrite bind_unfold in Hrun.
  destruct (paths_to_spectrograms val_paths _) as [[val|e] w2] eqn:Hval;
    apply paths_to_spectrograms_inv in Hval
      as (Hfs2 & ev2 & Hlog2 & Hst2 & Hr2);
    rewrite Hlog1 in Hlog2; norm_log_in Hlog2.
  2:{ injection Hrun as <- <-. split; [congruence|].
      eexists. rewrite Hload, Hlog2. by split. }
  destruct Hr2 as (-> & Hlen2 & Hsh2).
  rewrite bind_unfold, (tf_stack_run _ _ Hsh1) in Hrun.
  rewrite bind_unfold, (tf_stack_run _ _ Hsh2) in Hrun.
  cbn [fs log] in Hrun.
  do 7 (rewrite bind_unfold in Hrun; cbn [emit fs log] in Hrun).
  rewrite bind_unfold, model_fit_run in Hrun. cbn [fs log] in Hrun.
  rewrite Hlog2, Hfs2, Hfs1 in Hrun. norm_log_in Hrun.
  destruct (fit _ _ _ _ _ _ _) as [model|] eqn:Hfit.
  2:{ injection Hrun as <- <-. split; [done|].
      eexists. rewrite Hload. by split. }
  unfold model_save in Hrun.
  rewrite !bind_unfold in Hrun. cbn [emit write_file fs log] in Hrun.
  norm_log_in Hrun.
  injection Hrun as <- <-. split; [done|].
  exists (EPrint MsgConverting ::
          convert_events train_paths ++ convert_events val_paths ++
          training_events train val (length (splitlines content))).
  rewrite Hload. unfold training_events. norm_log. split; [done|]. intros _.
  by exists train_paths, val_paths, train_labels, val_labels, train, val, model.
Qed.

End Running.

(** ** The order of the stages *)

Lemma nondecreasing_weaken (lo lo' : nat) (l : list event) :
  lo <= lo' -> nondecreasing lo' l = true -> nondecreasing lo l = true.
Proof.
  revert lo lo'. induction l as [|e l IH]; intros lo lo' Hle; [done|].
  cbn [nondecreasing]. destruct (stage_of e) as [s|]; [|by apply IH].
  rewrite !andb_true_iff, !Nat.leb_le. intros [? ?]. split; [lia | done].
Qed.

Lemma nondecreasing_absent (lo : nat) (a : stage) (l : list event) :
  nondecreasing lo l = true -> rank a < lo -> occurs a l = false.
Proof.
  revert lo. induction l as [|e l IH]; intros lo Hnd Ha; [done|].
  cbn [nondecreasing] in Hnd. cbn [occurs existsb]. unfold is_stage at 1.
  destruct (stage_of e) as [s|] eqn:Hs.
  - apply andb_true_iff in Hnd as [Hlo Hnd]. apply Nat.leb_le in Hlo.
    rewrite bool_decide_eq_false_2 by (intros [= ->]; lia).
    apply (IH (rank s)); [done | lia].
  - rewrite bool_decide_eq_false_2 by done. by apply (IH lo).
Qed.

Lemma nondecreasing_before (lo : nat) (a b : stage) (l : list event) :
  nondecreasing lo l = true -> rank a < rank b -> before a b l = true.
Proof.
  intros Hnd Hab. revert lo Hnd.
  induction l as [|e l IH]; intros lo Hnd; [done|].
  cbn [nondecreasing] in Hnd. cbn [before]. unfold is_stage.
  destruct (stage_of e) as [s|] eqn:Hs.
  - apply andb_true_iff in Hnd as [_ Hnd].
    rewrite (IH _ Hnd), andb_true_r.
    destruct (decide (s = b)) as [-> | Hne].
    + by rewrite (nondecreasing_absent _ a _ Hnd Hab), orb_true_r.
    + by rewrite bool_decide_eq_false_2 by congruence.
  - rewrite (IH _ Hnd), andb_true_r.
    by rewrite bool_decide_eq_false_2 by done.
Qed.

Lemma nondecreasing_uniform_app (s : stage) (lo : nat) (l1 l2 : list event) :
  Forall (fun e => stage_of e = None \/ stage_of e = Some s) l1 ->
  lo <= rank s ->
  nondecreasing (rank s) l2 = true ->
  nondecreasing lo (l1 ++ l2) = true.
Proof.
  intros Hall. revert lo. induction Hall as [|e l1 He Hall IH]; intros lo Hlo Hnd.
  - by apply (nondecreasing_weaken lo (rank s)).
  - cbn [app nondecreasing]. destruct He as [-> | ->]; [by apply IH|].
    apply andb_true_iff. split; [by apply Nat.leb_le | by apply IH].
Qed.

(** Events given one by one, each with no stage or the stage asked. *)
Ltac stage_list :=
  repeat (apply List.Forall_cons; [simpl; first [by left | by right]|]);
  try apply List.Forall_nil.

Lemma scan_events_stage (f : filesystem) (dataset_path : string)
    (commands : list string) :
  Forall (fun e => stage_of e = None \/ stage_of e = Some Loading)
         (flat_map (scan_events f dataset_path) commands).
Proof.
  induction commands as [|c commands IH]; cbn [flat_map]; [done|].
  apply Forall_app. split; [|done]. unfold scan_events.
  destruct (fs_isdir f (Os.path_join dataset_path c)).
  - destruct (_ =? 0); stage_list.
  - stage_list.
Qed.

Lemma convert_events_stage (paths : list string) :
  Forall (fun e => stage_of e = None \/ stage_of e = Some Converting)
         (convert_events paths).
Proof.
  unfold convert_events.
  induction paths as [|p paths IH]; cbn [flat_map app]; [done|].
  stage_list. done.
Qed.

Lemma loading_events_stage (f : filesystem) (commands : list string) :
  Forall (fun e => stage_of e = None \/ stage_of e = Some Loading)
         (loading_events f commands).
Proof.
  unfold loading_events. apply Forall_app. split.
  - stage_list.
  - apply Forall_app. split; [apply scan_events_stage | stage_list].
Qed.

Lemma written_path_none (s : stage) (l : list event) :
  s <> Saving ->
  Forall (fun e => stage_of e = None \/ stage_of e = Some s) l ->
  omap written_path l = [].
Proof.
  intros Hs Hall. induction Hall as [|e l He Hall IH]; [done|].
  assert (written_path e = None) as Hnone.
  { destruct e; try done. destruct He as [He | He]; [done|].
    injection He as <-. done. }
  simpl. by rewrite Hnone.
Qed.

Lemma occurs_elem (s : stage) (e : event) (l : list event) :
  e ∈ l -> stage_of e = Some s -> occurs s l = true.
Proof.
  intros Hin Hs. apply existsb_exists. exists e.
  split; [by apply list_elem_of_In | by apply bool_decide_eq_true].
Qed.

Section Pipeline.
Context `{Library}.

Lemma script_success (f : filesystem) (w' : world) :
  script (World f []) = (Ok tt, w') ->
  exists content train_paths val_paths (train val : list spectrogram) model,
    f !! "commands_list.txt" = Some (File content) /\
    expected_samples f (splitlines content) DATASET_PATH <> [] /\
    fs w' = <["binary_kws_model.h5" := File (serialize model)]> f /\
    log w' = successful_log f (splitlines content) train_paths val_paths
                            train val.
Proof.
  intros Hrun. apply script_outcome in Hrun.
  destruct (f !! "commands_list.txt") as [[content|]|];
    try (by destruct Hrun as [[=] _]).
  cbv zeta in Hrun.
  destruct (expected_samples f (splitlines content) DATASET_PATH)
    as [|s samples] eqn:Hs; [by destruct Hrun as [[=] _]|].
  destruct Hrun as (_ & later & Hlog & Hok).
  destruct (Hok eq_refl)
    as (train_paths & val_paths & train_labels & val_labels & train & val &
        model & _ & _ & _ & Hfs & ->).
  exists content, train_paths, val_paths, train, val, model.
  split; [done|]. split; [by rewrite Hs|]. split; [done|].
  unfold successful_log. by rewrite Hs.
Qed.

Lemma successful_log_nondecreasing (f : filesystem)
    (commands train_paths val_paths : list string)
    (train val : list spectrogram) :
  nondecreasing 0
    (successful_log f commands train_paths val_paths train val) = true.
Proof.
  unfold successful_log.
  apply (nondecreasing_uniform_app Loading);
    [apply loading_events_stage | done |].
  cbn [nondecreasing stage_of rank Nat.leb andb].
  apply (nondecreasing_uniform_app Converting);
    [apply convert_events_stage | cbn [rank]; lia |].
  apply (nondecreasing_uniform_app Converting);
    [apply convert_events_stage | done |].
  reflexivity.
Qed.

Lemma successful_log_occurs (f : filesystem)
    (commands train_paths val_paths : list string)
    (train val : list spectrogram) :
  forallb (fun s => occurs s
             (successful_log f commands train_paths val_paths train val))
          [Loading; Splitting; Converting; Building; Training; Saving] = true.
Proof.
  unfold successful_log, loading_events, training_events.
  cbn [forallb]. rewrite !andb_true_iff.
  split; [apply (occurs_elem _ (EOpen "commands_list.txt")); [set_solver | done]|].
  split; [apply (occurs_elem _ (ESplit (length (expected_samples f commands
                                                   DATASET_PATH))));
          [set_solver | done]|].
  split; [apply (occurs_elem _ (EStack (length train))); [set_solver | done]|].
  split; [apply (occurs_elem _ ECompile); [set_solver | done]|].
  split; [apply (occurs_elem _ EFit); [set_solver | done]|].
  split; [|done].
  apply (occurs_elem _ (ESave "binary_kws_model.h5")); [set_solver | done].
Qed.

End Pipeline.

(** ** The entries of one label *)

Lemma expected_entries_agree (fs1 fs2 : filesystem) (dataset_path : string)
    (i : nat) (command : string) :
  fs1 !! Os.path_join dataset_path command =
    fs2 !! Os.path_join dataset_path command ->
  expected_entries fs1 dataset_path (i, command) =
  expected_entries fs2 dataset_path (i, command).
Proof.
  intros Hsame.
  unfold expected_entries, wav_files_of, fs_isdir, fs_listdir. simpl.
  by rewrite Hsame.
Qed.

Lemma filter_label_same (fs0 : filesystem) (dataset_path : string)
    (i : nat) (command : string) :
  filter (fun e => e.2 = i) (expected_entries fs0 dataset_path (i, command)) =
  expected_entries fs0 dataset_path (i, command).
Proof.
  unfold expected_entries. simpl.
  induction (wav_files_of fs0 dataset_path command) as [|file l IH]; [done|].
  simpl. rewrite filter_cons_True by done. by rewrite IH.
Qed.

Lemma filter_label_other (fs0 : filesystem) (dataset_path : string)
    (i k : nat) (command : string) :
  k <> i ->
  filter (fun e => e.2 = i) (expected_entries fs0 dataset_path (k, command)) = [].
Proof.
  intros Hne. unfold expected_entries. simpl.
  induction (wav_files_of fs0 dataset_path command) as [|file l IH]; [done|].
  simpl. by rewrite filter_cons_False by done.
Qed.

Lemma filter_label_entries (fs0 : filesystem) (dataset_path : string)
    (i : nat) (commands : list string) (k : nat) :
  filter (fun e => e.2 = i)
         (flat_map (expected_entries fs0 dataset_path)
                   (Py.enumerate_from k commands)) =
  if decide (k <= i) then
    match commands !! (i - k) with
    | Some command => expected_entries fs0 dataset_path (i, command)
    | None => []
    end
  else [].
Proof.
  revert k. induction commands as [|c commands IH]; intros k.
  { simpl. by destruct (decide (k <= i)). }
  cbn [Py.enumerate_from flat_map]. rewrite filter_app, IH.
  destruct (decide (k = i)) as [-> | Hne].
  - rewrite filter_label_same, Nat.sub_diag.
    rewrite decide_False by lia. rewrite decide_True by lia.
    by rewrite app_nil_r.
  - rewrite filter_label_other by done. cbn [app].
    destruct (decide (k <= i)) as [Hle | Hgt].
    + rewrite decide_True by lia.
      replace (i - k) with (S (i - S k)) by lia. done.
    + by rewrite decide_False by lia.
Qed.

Lemma filter_label_samples (fs0 : filesystem) (commands : list string)
    (dataset_path : string) (i : nat) (command : string) :
  commands !! i = Some command ->
  filter (fun e => e.2 = i) (expected_samples fs0 commands dataset_path) =
  expected_entries fs0 dataset_path (i, command).
Proof.
  intros Hc. unfold expected_samples, Py.enumerate.
  rewrite filter_label_entries, decide_True by lia.
  by rewrite Nat.sub_0_r, Hc.
Qed.

(** * The script as a whole *)

Section WholeScript.
Context `{Library}.

(** C1: when the scan finds no sample the script raises the fatal
    ValueError, writes nothing and calls nothing of the later stages; when
    it finds at least one, that error is not raised. *)
Theorem no_samples_is_fatal (f : filesystem) (content : string) :
  f !! "commands_list.txt" = Some (File content) ->
  exists audio_paths labels w1 r w',
    load_audio_files (splitlines content) DATASET_PATH (World f []) =
      (Ok (audio_paths, labels), w1) /\
    script (World f []) = (r, w') /\
    (audio_paths = [] ->
     r = Raise ValueError_no_samples /\
     fs w' = f /\
     Forall (fun e => stage_of e = None \/ stage_of e = Some Loading) (log w')) /\
    (audio_paths <> [] -> r <> Raise ValueError_no_samples).
Proof.
  intros Hfile. rewrite load_audio_files_run. cbn [fs].
  destruct (script (World f [])) as [r w'] eqn:Hrun.
  eexists _, _, _, r, w'. split; [reflexivity|]. split; [reflexivity|].
  apply script_outcome in Hrun. rewrite Hfile in Hrun. cbv zeta in Hrun.
  destruct (expected_samples f (splitlines content) DATASET_PATH)
    as [|s samples].
  - destruct Hrun as [-> ->]. split; [|done]. intros _.
    split; [done|]. split; [done|]. apply loading_events_stage.
  - destruct Hrun as [Hne _]. split; [discriminate | done].
Qed.

(** C3, as the code has it: a run that ends without an exception loads the
    labelled paths, splits them, converts each side to spectrograms, builds
    the model, trains it and saves it, in this order, and every stage
    occurs. *)
Theorem script_stage_order (f : filesystem) (w' : world) :
  script (World f []) = (Ok tt, w') ->
  (exists content train_paths val_paths (train val : list spectrogram),
      log w' = successful_log f (splitlines content) train_paths val_paths
                              train val) /\
  stages_in_order [Loading; Splitting; Converting; Building; Training; Saving] (log w') = true /\
  forallb (fun s => occurs s (log w'))
          [Loading; Splitting; Converting; Building; Training; Saving] = true.
Proof.
  intros Hrun. apply script_success in Hrun
    as (content & train_paths & val_paths & train & val & model &
        _ & _ & _ & Hlog).
  split; [by exists content, train_paths, val_paths, train, val|].
  rewrite Hlog. split; [|apply successful_log_occurs].
  pose proof (successful_log_nondecreasing f (splitlines content)
                train_paths val_paths train val) as Hnd.
  cbn [stages_in_order].
  rewrite !(nondecreasing_before 0 _ _ _ Hnd) by (cbn [rank]; lia). done.
Qed.

(** C7: a run that ends without an exception leaves the file system as it
    was except at 'binary_kws_model.h5', which holds the serialized model;
    that path is the only one the script writes to. *)
Theorem script_writes_only_the_model (f : filesystem) (w' : world) :
  script (World f []) = (Ok tt, w') ->
  exists model,
    fs w' = <["binary_kws_model.h5" := File (serialize model)]> f /\
    (forall p, p <> "binary_kws_model.h5" -> fs w' !! p = f !! p) /\
    omap written_path (log w') = ["binary_kws_model.h5"].
Proof.
  intros Hrun. apply script_success in Hrun
    as (content & train_paths & val_paths & train & val & model &
        _ & _ & Hfs & Hlog).
  exists model. split; [done|]. split.
  - intros p Hp. rewrite Hfs. by apply lookup_insert_ne.
  - rewrite Hlog. unfold successful_log.
    rewrite omap_app, (written_path_none Loading)
      by (done || apply loading_events_stage).
    cbn [app]. change (omap written_path (ESplit ?n :: EPrint ?m :: ?l))
      with (omap written_path l).
    rewrite !omap_app, !(written_path_none Converting)
      by (done || apply convert_events_stage).
    reflexivity.
Qed.

(** C10: a file's label is the position of its command in the commands
    list.  The files of the command at index [i] get label [i]; every label
    is the index of the command whose directory lists the file; the entries
    with label [i] are the same on two file systems that agree on that
    command's directory, whatever the other directories hold; and the model
    is built with [len(commands)] classes. *)
Theorem labels_are_command_positions :
  (forall (commands : list string) (dataset_path : string) (w : world),
      exists audio_paths labels w',
        load_audio_files commands dataset_path w =
          (Ok (audio_paths, labels), w') /\
        (forall i command file,
            commands !! i = Some command ->
            file ∈ wav_files_of (fs w) dataset_path command ->
            exists k,
              audio_paths !! k =
                Some (Os.path_join (Os.path_join dataset_path command) file) /\
              labels !! k = Some i) /\
        (forall k p i,
            audio_paths !! k = Some p -> labels !! k = Some i ->
            exists command file,
              commands !! i = Some command /\
              file ∈ wav_files_of (fs w) dataset_path command /\
              p = Os.path_join (Os.path_join dataset_path command) file)) /\
  (forall (commands : list string) (dataset_path : string) (w1 w2 : world)
          (i : nat) (command : string),
      commands !! i = Some command ->
      fs w1 !! Os.path_join dataset_path command =
        fs w2 !! Os.path_join dataset_path command ->
      exists paths1 labels1 w1' paths2 labels2 w2',
        load_audio_files commands dataset_path w1 =
          (Ok (paths1, labels1), w1') /\
        load_audio_files commands dataset_path w2 =
          (Ok (paths2, labels2), w2') /\
        filter (fun e => e.2 = i) (zip paths1 labels1) =
        filter (fun e => e.2 = i) (zip paths2 labels2)) /\
  (forall (f : filesystem) (w' : world),
      script (World f []) = (Ok tt, w') ->
      exists content input_shape,
        f !! "commands_list.txt" = Some (File content) /\
        EPrint (MsgNumClasses (length (splitlines content))) ∈ log w' /\
        EBuild (create_binary_model input_shape
                                    (length (splitlines content))) ∈ log w').
Proof.
  split; [|split].
  - intros commands dataset_path w. rewrite load_audio_files_run.
    eexists _, _, _. split; [reflexivity|]. split.
    + intros i command file Hc Hfile.
      assert ((Os.path_join (Os.path_join dataset_path command) file, i)
                ∈ expected_samples (fs w) commands dataset_path) as Hmem.
      { apply expected_samples_lookup. by exists command, file. }
      apply list_elem_of_lookup in Hmem as [k Hk]. exists k.
      by rewrite !list_lookup_fmap, Hk.
    + intros k p i Hp Hi.
      pose proof (lookup_fst_snd _ _ _ _ Hp Hi) as Hk.
      by apply list_elem_of_lookup_2, expected_samples_lookup in Hk.
  - intros commands dataset_path w1 w2 i command Hc Hsame.
    rewrite !load_audio_files_run.
    eexists _, _, _, _, _, _. split; [reflexivity|]. split; [reflexivity|].
    rewrite !zip_fst_snd, !(filter_label_samples _ _ _ _ _ Hc).
    by apply expected_entries_agree.
  - intros f w' Hrun. apply script_success in Hrun
      as (content & train_paths & val_paths & train & val & model &
          Hfile & _ & _ & Hlog).
    exists content, (tail (stacked_shape train)). split; [done|].
    rewrite Hlog. unfold successful_log, training_events. set_solver.
Qed.

End WholeScript.

(** ** The script on the demo installation *)

Lemma no_samples_is_fatal_witness :
  exists audio_paths labels w1 r w',
    load_audio_files (@splitlines Demo.library Demo.commands_txt) DATASET_PATH
                     (World Demo.no_clips []) =
      (Ok (audio_paths, labels), w1) /\
    @script Demo.library (World Demo.no_clips []) = (r, w') /\
    (audio_paths = [] ->
     r = Raise ValueError_no_samples /\
     fs w' = Demo.no_clips /\
     Forall (fun e => stage_of e = None \/ stage_of e = Some Loading) (log w')) /\
    (audio_paths <> [] -> r <> Raise ValueError_no_samples).
Proof.
  apply (@no_samples_is_fatal Demo.library Demo.no_clips Demo.commands_txt).
  vm_compute. reflexivity.
Defined.

Lemma script_stage_order_witness :
  (exists content train_paths val_paths
          (train val : list (@spectrogram Demo.library)),
      log Demo.final =
      successful_log Demo.files (@splitlines Demo.library content)
                     train_paths val_paths train val) /\
  stages_in_order [Loading; Splitting; Converting; Building; Training; Saving]
                  (log Demo.final) = true /\
  forallb (fun s => occurs s (log Demo.final))
          [Loading; Splitting; Converting; Building; Training; Saving] = true.
Proof.
  apply (@script_stage_order Demo.library Demo.files Demo.final).
  vm_compute. reflexivity.
Defined.

(** C3, as it is written, fails on the demo installation: the run ends
    without an exception, and its spectrogram conversions do not all come
    before the split. *)
Lemma claimed_stage_order_fails :
  @script Demo.library (World Demo.files []) = (Ok tt, Demo.final) /\
  stages_in_order [Loading; Converting; Splitting; Building; Training; Saving]
                  (log Demo.final) = false /\
  before Converting Splitting (log Demo.final) = false.
Proof.
  split; [vm_compute; reflexivity|].
  split; vm_compute; reflexivity.
Qed.

Lemma script_writes_only_the_model_witness :
  exists model,
    fs Demo.final =
      <["binary_kws_model.h5" := File (@serialize Demo.library model)]>
        Demo.files /\
    (forall p, p <> "binary_kws_model.h5" ->
               fs Demo.final !! p = Demo.files !! p) /\
    omap written_path (log Demo.final) = ["binary_kws_model.h5"].
Proof.
  apply (@script_writes_only_the_model Demo.library Demo.files Demo.final).
  vm_compute. reflexivity.
Defined.

Lemma labels_are_command_positions_witness :
  exists content input_shape,
    Demo.files !! "commands_list.txt" = Some (File content) /\
    EPrint (MsgNumClasses (length (@splitlines Demo.library content)))
      ∈ log Demo.final /\
    EBuild (create_binary_model input_shape
              (length (@splitlines Demo.library content))) ∈ log Demo.final.
Proof.
  apply (proj2 (proj2 (@labels_are_command_positions Demo.library))
               Demo.files Demo.final).
  vm_compute. reflexivity.
Defined.

Lemma spectrograms_have_fixed_shape_witness :
  exists result w',
    @paths_to_spectrograms Demo.library
      ["speech-commands/yes/a.wav"; "speech-commands/no/f.wav"]
      (World Demo.files []) = (Ok result, w') /\
    length result = 2 /\
    Forall (@has_shape3 Demo.library 124 129 1) result.
Proof.
  apply (proj2 (@spectrograms_have_fixed_shape Demo.library
                  ["speech-commands/yes/a.wav"; "speech-commands/no/f.wav"]
                  (World Demo.files []))).
  repeat constructor; eexists _, _; split; vm_compute; reflexivity.
Defined.

(** ** Worked examples *)

Example path_join_examples :
  Os.path_join "speech-commands/" "yes" = "speech-commands/yes" /\
  Os.path_join "speech-commands" "yes" = "speech-commands/yes" /\
  Os.path_join "" "yes" = "yes" /\
  Os.path_join "speech-commands/" "/tmp/yes" = "/tmp/yes" /\
  Os.path_join "speech-commands/" "" = "speech-commands/".
Proof. repeat split; vm_compute; reflexivity. Qed.

Example endswith_examples :
  Py.endswith "a.wav" ".wav" = true /\
  Py.endswith "clip.WAV" ".wav" = false /\
  Py.endswith "wav" ".wav" = false /\
  Py.endswith ".wav" ".wav" = true.
Proof. repeat split; vm_compute; reflexivity. Qed.

(** 'up' has no directory and 'down' has no '.wav' file: labels 1 and 2
    never occur, and 'no' keeps label 3. *)
Example load_audio_files_demo :
  load_audio_files Demo.commands "speech-commands/" (World Demo.files []) =
  (Ok (["speech-commands/yes/a.wav"; "speech-commands/yes/b.wav";
        "speech-commands/yes/c.wav"; "speech-commands/yes/d.wav";
        "speech-commands/yes/e.wav"; "speech-commands/no/f.wav";
        "speech-commands/no/g.wav"; "speech-commands/no/h.wav";
        "speech-commands/no/i.wav"; "speech-commands/no/j.wav"],
       [0; 0; 0; 0; 0; 3; 3; 3; 3; 3]),
   World Demo.files
         [EListdir "speech-commands/yes"; EPrint (MsgMissingCommand "up");
          EListdir "speech-commands/down"; EPrint (MsgEmptyDirectory "down");
          EListdir "speech-commands/no"]).
Proof. vm_compute. reflexivity. Qed.

Example pad_or_truncate_short :
  @pad_or_truncate Demo.library [1; 2; 3]%Z (World Demo.files []) =
  (Ok ([1; 2; 3]%Z ++ replicate (Z.to_nat 15997) 0%Z), World Demo.files []).
Proof. vm_compute. reflexivity. Qed.

Example pad_or_truncate_long :
  (fun r => match r with Ok audio => Some (length audio) | Raise _ => None end)
    (@pad_or_truncate Demo.library (replicate (Z.to_nat 20000) 7%Z) (World Demo.files [])).1
  = Some (Z.to_nat 16000).
Proof. vm_compute. reflexivity. Qed.

(** A clip with two channels stops the conversion at [tf.squeeze]. *)
Example two_channels_raise :
  (@paths_to_spectrograms Demo.library ["stereo.wav"]
     (World {["stereo.wav" := File "Sabc"]} [])).1 =
  Raise (SqueezeError "stereo.wav").
Proof. vm_compute. reflexivity. Qed.

Example script_demo_log :
  log Demo.final =
  [EPrint MsgNumGpus; EOpen "commands_list.txt";
   EPrint (MsgCommands ["yes"; "up"; "down"; "no"]);
   EListdir "speech-commands/yes"; EPrint (MsgMissingCommand "up");
   EListdir "speech-commands/down"; EPrint (MsgEmptyDirectory "down");
   EListdir "speech-commands/no"; EPrint (MsgTotalSamples 10);
   ESplit 10; EPrint MsgConverting;
   EReadFile "speech-commands/yes/b.wav"; EStft "speech-commands/yes/b.wav";
   EReadFile "speech-commands/yes/c.wav"; EStft "speech-commands/yes/c.wav";
   EReadFile "speech-commands/yes/d.wav"; EStft "speech-commands/yes/d.wav";
   EReadFile "speech-commands/yes/e.wav"; EStft "speech-commands/yes/e.wav";
   EReadFile "speech-commands/no/g.wav"; EStft "speech-commands/no/g.wav";
   EReadFile "speech-commands/no/h.wav"; EStft "speech-commands/no/h.wav";
   EReadFile "speech-commands/no/i.wav"; EStft "speech-commands/no/i.wav";
   EReadFile "speech-commands/no/j.wav"; EStft "speech-commands/no/j.wav";
   EReadFile "speech-commands/yes/a.wav"; EStft "speech-commands/yes/a.wav";
   EReadFile "speech-commands/no/f.wav"; EStft "speech-commands/no/f.wav";
   EStack 8; EStack 2;
   EPrint (MsgTrainShape [8; 124; 129; 1]);
   EPrint (MsgValShape [2; 124; 129; 1]);
   EPrint (MsgInputShape [124; 129; 1]); EPrint (MsgNumClasses 4);
   EBuild (create_binary_model [124; 129; 1] 4);
   ECompile; ESummary; EFit; ESave "binary_kws_model.h5"; EPrint MsgSaved].
Proof. vm_compute. reflexivity. Qed.

Example script_without_clips :
  @script Demo.library (World Demo.no_clips []) =
  (Raise ValueError_no_samples,
   World Demo.no_clips
     [EPrint MsgNumGpus; EOpen "commands_list.txt";
      EPrint (MsgCommands ["yes"; "up"; "down"; "no"]);
      EPrint (MsgMissingCommand "yes"); EPrint (MsgMissingCommand "up");
      EListdir "speech-commands/down"; EPrint (MsgEmptyDirectory "down");
      EPrint (MsgMissingCommand "no"); EPrint (MsgTotalSamples 0)]).
Proof. vm_compute. reflexivity. Qed.

(** * Further properties *)

(** ** The scan: order, counts, composition, warnings *)

Lemma filter_map_snd {A} (i : nat) (l : list (A * nat)) :
  filter (fun label => label = i) (map snd l) =
  map snd (filter (fun e => e.2 = i) l).
Proof.
  induction l as [|[a b] l IH]; [done|]. simpl.
  destruct (decide (b = i)) as [-> | Hne].
  - rewrite !filter_cons_True by done. simpl. by rewrite IH.
  - by rewrite !filter_cons_False by done.
Qed.

Lemma expected_entries_labels (fs0 : filesystem) (dataset_path : string)
    (item : nat * string) :
  Forall (fun label => label = item.1)
         (map snd (expected_entries fs0 dataset_path item)).
Proof.
  unfold expected_entries. rewrite map_map. simpl.
  apply Forall_fmap, Forall_forall. by intros file _.
Qed.

Lemma expected_labels_sorted (fs0 : filesystem) (dataset_path : string)
    (commands : list string) (k : nat) :
  StronglySorted le
    (map snd (flat_map (expected_entries fs0 dataset_path)
                       (Py.enumerate_from k commands))) /\
  Forall (fun label => k <= label)
    (map snd (flat_map (expected_entries fs0 dataset_path)
                       (Py.enumerate_from k commands))).
Proof.
  revert k. induction commands as [|c commands IH]; intros k.
  { split; constructor. }
  cbn [Py.enumerate_from flat_map]. rewrite map_app.
  destruct (IH (S k)) as [Hsorted Hge].
  pose proof (expected_entries_labels fs0 dataset_path (k, c)) as Hk.
  simpl in Hk. rewrite Forall_forall in Hk, Hge.
  split.
  - apply StronglySorted_app_2.
    + intros x1 x2 H1 H2. apply Hk in H1. apply Hge in H2. lia.
    + induction (map snd (expected_entries fs0 dataset_path (k, c)))
        as [|x l IHl]; constructor.
      * apply IHl. intros y Hy. apply Hk. by right.
      * apply Forall_forall. intros y Hy.
        rewrite (Hk x) by left. rewrite (Hk y) by (by right). done.
    + done.
  - apply Forall_app. split; apply Forall_forall; intros x Hx.
    + apply Hk in Hx. lia.
    + apply Hge in Hx. lia.
Qed.

(** X1: the labels come out in non-decreasing order: the clips of one
    command are next to each other, command after command; the scan does
    not shuffle. *)
Theorem load_audio_files_labels_sorted (commands : list string)
    (dataset_path : string) (w : world) :
  exists audio_paths labels w',
    load_audio_files commands dataset_path w = (Ok (audio_paths, labels), w') /\
    StronglySorted le labels.
Proof.
  rewrite load_audio_files_run. eexists _, _, _. split; [reflexivity|].
  apply expected_labels_sorted.
Qed.

(** X2: the number of entries with label [i] is the number of names ending
    in '.wav' in the directory of the command at index [i] (none when that
    directory is missing), and no entry has a label outside the list. *)
Theorem load_audio_files_class_counts (commands : list string)
    (dataset_path : string) (w : world) :
  exists audio_paths labels w',
    load_audio_files commands dataset_path w = (Ok (audio_paths, labels), w') /\
    forall i,
      length (filter (fun label => label = i) labels) =
      match commands !! i with
      | Some command => length (wav_files_of (fs w) dataset_path command)
      | None => 0
      end.
Proof.
  rewrite load_audio_files_run. eexists _, _, _. split; [reflexivity|].
  intros i. rewrite filter_map_snd, length_map.
  unfold expected_samples, Py.enumerate.
  rewrite filter_label_entries, decide_True by lia. rewrite Nat.sub_0_r.
  destruct (commands !! i) as [command|]; [|done].
  unfold expected_entries. by rewrite length_map.
Qed.

Lemma expected_entries_offset (fs0 : filesystem) (dataset_path : string)
    (commands : list string) (n k : nat) :
  flat_map (expected_entries fs0 dataset_path)
           (Py.enumerate_from (n + k) commands) =
  map (fun e => (e.1, n + e.2))
      (flat_map (expected_entries fs0 dataset_path)
                (Py.enumerate_from k commands)).
Proof.
  revert k. induction commands as [|c commands IH]; intros k; [done|].
  cbn [Py.enumerate_from flat_map]. rewrite map_app.
  replace (S (n + k)) with (n + S k) by lia. rewrite IH. f_equal.
  unfold expected_entries. simpl. by rewrite map_map.
Qed.

(** X3: scanning a commands list in two parts and putting the results
    together gives the scan of the whole list, once the labels of the second
    part are raised by the length of the first; the events are those of the
    first scan followed by those of the second. *)
Theorem load_audio_files_app (first second : list string)
    (dataset_path : string) (w : world) :
  exists paths1 labels1 w1 paths2 labels2 w2,
    load_audio_files first dataset_path w = (Ok (paths1, labels1), w1) /\
    load_audio_files second dataset_path w1 = (Ok (paths2, labels2), w2) /\
    load_audio_files (first ++ second) dataset_path w =
      (Ok (paths1 ++ paths2,
           labels1 ++ map (fun label => length first + label) labels2), w2).
Proof.
  eexists _, _, _, _, _, _.
  split; [apply load_audio_files_run|].
  split; [apply load_audio_files_run|].
  rewrite load_audio_files_run. cbn [fs log].
  unfold expected_samples, Py.enumerate.
  rewrite enumerate_from_app, !flat_map_app, !map_app.
  replace (0 + length first) with (length first + 0) by lia.
  rewrite expected_entries_offset, !map_map. simpl.
  by rewrite <- app_assoc.
Qed.

Lemma scan_events_warned (fs0 : filesystem) (dataset_path command : string) :
  omap warned_command (scan_events fs0 dataset_path command) =
  if decide (wav_files_of fs0 dataset_path command = []) then [command] else [].
Proof.
  unfold scan_events, wav_files_of.
  destruct (fs_isdir fs0 (Os.path_join dataset_path command)); [|done].
  destruct (filter _ _) as [|file files]; done.
Qed.

(** X4: the scan prints exactly one warning for each command that
    contributes no sample, in the order of the commands, and none for a
    command that contributes one. *)
Theorem load_audio_files_warnings (commands : list string)
    (dataset_path : string) (f : filesystem) :
  exists result w',
    load_audio_files commands dataset_path (World f []) = (Ok result, w') /\
    omap warned_command (log w') =
    filter (fun command => wav_files_of f dataset_path command = []) commands.
Proof.
  rewrite load_audio_files_run. eexists _, _. split; [reflexivity|].
  cbn [fs log app].
  induction commands as [|c commands IH]; [done|].
  cbn [flat_map]. rewrite omap_app, scan_events_warned, IH.
  destruct (decide (wav_files_of f dataset_path c = [])) as [Hnone | Hsome].
  - by rewrite filter_cons_True.
  - by rewrite filter_cons_False.
Qed.

Lemma scan_events_agree (fs1 fs2 : filesystem) (dataset_path command : string) :
  fs1 !! Os.path_join dataset_path command =
    fs2 !! Os.path_join dataset_path command ->
  scan_events fs1 dataset_path command = scan_events fs2 dataset_path command.
Proof.
  intros Hsame. unfold scan_events, wav_files_of, fs_isdir, fs_listdir.
  by rewrite Hsame.
Qed.

(** X5: the scan looks at nothing but the directories of the commands: on
    two file systems that agree on the joined path of every command it
    returns the same paths and labels and logs the same events.  Whether a
    listed name is a regular file, and what it holds, plays no part. *)
Theorem load_audio_files_reads_directories_only (commands : list string)
    (dataset_path : string) (fs1 fs2 : filesystem) (events : list event) :
  Forall (fun c => fs1 !! Os.path_join dataset_path c =
                   fs2 !! Os.path_join dataset_path c) commands ->
  (load_audio_files commands dataset_path (World fs1 events)).1 =
  (load_audio_files commands dataset_path (World fs2 events)).1 /\
  log (load_audio_files commands dataset_path (World fs1 events)).2 =
  log (load_audio_files commands dataset_path (World fs2 events)).2.
Proof.
  intros Hsame. rewrite !load_audio_files_run. cbn [fst snd fs log].
  unfold expected_samples, Py.enumerate. generalize 0 as k.
  induction Hsame as [|c commands Hc Hsame IH]; intros k; [done|].
  cbn [Py.enumerate_from flat_map]. rewrite !map_app.
  destruct (IH (S k)) as [Hres Hlog].
  injection Hres as Hpaths Hlabels.
  apply app_inv_head in Hlog.
  rewrite (expected_entries_agree fs1 fs2 _ k c Hc), Hpaths, Hlabels.
  by rewrite (scan_events_agree fs1 fs2 _ c Hc), Hlog.
Qed.

Lemma load_audio_files_reads_directories_only_witness :
  (load_audio_files Demo.commands "speech-commands/"
     (World Demo.files [])).1 =
  (load_audio_files Demo.commands "speech-commands/"
     (World (delete "speech-commands/yes/a.wav" Demo.files) [])).1 /\
  log (load_audio_files Demo.commands "speech-commands/"
         (World Demo.files [])).2 =
  log (load_audio_files Demo.commands "speech-commands/"
         (World (delete "speech-commands/yes/a.wav" Demo.files) [])).2.
Proof.
  apply (load_audio_files_reads_directories_only Demo.commands
           "speech-commands/" Demo.files
           (delete "speech-commands/yes/a.wav" Demo.files) []).
  repeat constructor.
Defined.

(** ** The scan: no path twice *)

Lemma chars_inj (a b : string) : Py.chars a = Py.chars b -> a = b.
Proof.
  unfold Py.chars. intros Heq.
  rewrite <- (String.string_of_list_ascii_of_string a),
          <- (String.string_of_list_ascii_of_string b).
  by rewrite Heq.
Qed.

Lemma string_app_inv_head (a b1 b2 : string) : a +:+ b1 = a +:+ b2 -> b1 = b2.
Proof.
  intros Heq. apply chars_inj.
  apply (f_equal Py.chars) in Heq. rewrite !chars_app in Heq.
  by apply app_inv_head in Heq.
Qed.

Lemma no_slash_relative (b : string) :
  no_slash b -> Py.startswith b Os.sep = false.
Proof.
  intros Hb. unfold Py.startswith. apply bool_decide_eq_false.
  intros [k Hk]. apply Hb. rewrite Hk. apply list_elem_of_here.
Qed.

Lemma path_join_relative (a b : string) :
  no_slash b -> Os.path_join a b = dir_prefix a +:+ b.
Proof.
  intros Hb. unfold Os.path_join, dir_prefix.
  rewrite (no_slash_relative b Hb).
  destruct (Py.is_empty a || Py.endswith a Os.sep); [done|].
  apply chars_inj. by rewrite !chars_app, <- app_assoc.
Qed.

Lemma dir_prefix_command (x c : string) :
  c <> "" -> no_slash c -> dir_prefix (x +:+ c) = x +:+ c +:+ Os.sep.
Proof.
  intros Hne Hc. unfold dir_prefix.
  assert (Py.chars c <> []) as Hchars.
  { intros Hnil. apply Hne, chars_inj. by rewrite Hnil. }
  assert (Py.is_empty (x +:+ c) = false) as ->.
  { destruct (x +:+ c) eqn:Heq; [|done].
    apply (f_equal Py.chars) in Heq. rewrite chars_app in Heq.
    apply app_eq_nil in Heq as [_ Hnil]. done. }
  assert (Py.endswith (x +:+ c) Os.sep = false) as ->.
  { unfold Py.endswith. apply bool_decide_eq_false. intros [k Hk].
    rewrite chars_app in Hk.
    destruct (Py.chars c) as [|ch l _] eqn:Hl using rev_ind; [done|].
    rewrite app_assoc in Hk. apply app_inj_tail in Hk as [_ ->].
    apply Hc. rewrite Hl. apply elem_of_app. right. apply list_elem_of_here. }
  simpl. apply chars_inj. by rewrite !chars_app, <- app_assoc.
Qed.

(** The path of a clip, spelled out. *)
Lemma sample_path_spelled (dataset_path c file : string) :
  c <> "" -> no_slash c -> no_slash file ->
  Os.path_join (Os.path_join dataset_path c) file =
  dir_prefix dataset_path +:+ c +:+ Os.sep +:+ file.
Proof.
  intros Hne Hc Hfile.
  rewrite (path_join_relative _ file Hfile), (path_join_relative _ c Hc).
  rewrite (dir_prefix_command _ c Hne Hc).
  apply chars_inj. by rewrite !chars_app, <- !app_assoc.
Qed.

Lemma split_at_first {A} (x : A) (l1 r1 l2 r2 : list A) :
  x ∉ l1 -> x ∉ l2 -> l1 ++ x :: r1 = l2 ++ x :: r2 -> l1 = l2 /\ r1 = r2.
Proof.
  revert l2. induction l1 as [|a l1 IH]; intros [|b l2] H1 H2 Heq; simpl in *.
  - by injection Heq as ->.
  - injection Heq as -> _. exfalso. apply H2, list_elem_of_here.
  - injection Heq as -> _. exfalso. apply H1, list_elem_of_here.
  - injection Heq as -> Heq.
    apply not_elem_of_cons in H1 as [_ H1].
    apply not_elem_of_cons in H2 as [_ H2].
    destruct (IH l2 H1 H2 Heq) as [-> ->]. done.
Qed.

Lemma sample_path_inj (dataset_path c1 f1 c2 f2 : string) :
  c1 <> "" -> no_slash c1 -> no_slash f1 ->
  c2 <> "" -> no_slash c2 -> no_slash f2 ->
  Os.path_join (Os.path_join dataset_path c1) f1 =
  Os.path_join (Os.path_join dataset_path c2) f2 ->
  c1 = c2 /\ f1 = f2.
Proof.
  intros Hne1 Hc1 Hf1 Hne2 Hc2 Hf2.
  rewrite !sample_path_spelled by done. intros Heq.
  apply string_app_inv_head in Heq.
  apply (f_equal Py.chars) in Heq. rewrite !chars_app in Heq.
  apply split_at_first in Heq as [Hc Hf]; [|done..].
  split; by apply chars_inj.
Qed.

Lemma expected_paths_flat_map (fs0 : filesystem) (dataset_path : string)
    (commands : list string) (k : nat) :
  map fst (flat_map (expected_entries fs0 dataset_path)
                    (Py.enumerate_from k commands)) =
  flat_map (fun c => map (Os.path_join (Os.path_join dataset_path c))
                         (wav_files_of fs0 dataset_path c)) commands.
Proof.
  revert k. induction commands as [|c commands IH]; intros k; [done|].
  cbn [Py.enumerate_from flat_map]. rewrite map_app, IH. f_equal.
  unfold expected_entries. by rewrite map_map.
Qed.

Lemma wav_files_of_listed (fs0 : filesystem) (dataset_path c : string) :
  NoDup (fs_listdir fs0 (Os.path_join dataset_path c)) ->
  Forall no_slash (fs_listdir fs0 (Os.path_join dataset_path c)) ->
  NoDup (wav_files_of fs0 dataset_path c) /\
  Forall no_slash (wav_files_of fs0 dataset_path c).
Proof.
  intros Hnd Hall. unfold wav_files_of.
  destruct (fs_isdir fs0 (Os.path_join dataset_path c)).
  - split; [by apply NoDup_filter|].
    apply Forall_forall. intros file Hin.
    apply list_elem_of_filter in Hin as [_ Hin].
    rewrite Forall_forall in Hall. by apply Hall.
  - split; constructor.
Qed.

(** X6: when no command is listed twice, every command is a non-empty name
    without a separator and every directory lists each name once and
    without a separator (as [os.listdir] does), no path is returned
    twice. *)
Theorem load_audio_files_paths_nodup (commands : list string)
    (dataset_path : string) (w : world) :
  NoDup commands ->
  Forall (fun c => c <> "" /\ no_slash c) commands ->
  Forall (fun c => NoDup (fs_listdir (fs w) (Os.path_join dataset_path c)) /\
                   Forall no_slash
                          (fs_listdir (fs w) (Os.path_join dataset_path c)))
         commands ->
  exists audio_paths labels w',
    load_audio_files commands dataset_path w = (Ok (audio_paths, labels), w') /\
    NoDup audio_paths.
Proof.
  intros Hnodup Hnames Hlistings.
  rewrite load_audio_files_run. eexists _, _, _. split; [reflexivity|].
  unfold expected_samples, Py.enumerate. rewrite expected_paths_flat_map.
  induction commands as [|c commands IH]; [constructor|].
  apply NoDup_cons in Hnodup as [Hfresh Hnodup].
  apply Forall_cons_1 in Hnames as [[Hne Hc] Hnames].
  apply Forall_cons_1 in Hlistings as [[Hnd Hall] Hlistings].
  destruct (wav_files_of_listed _ _ _ Hnd Hall) as [Hwnd Hwall].
  rewrite Forall_forall in Hwall.
  cbn [flat_map]. apply NoDup_app. split; [|split].
  - apply NoDup_fmap_2_strong; [|done].
    intros f1 f2 H1 H2 Heq.
    by apply sample_path_inj in Heq as [_ ?]; auto.
  - intros p Hp Hin.
    apply list_elem_of_fmap in Hp as (f1 & -> & Hf1).
    apply list_elem_of_In, in_flat_map in Hin as (c2 & Hc2 & Hin).
    apply list_elem_of_In in Hc2, Hin.
    apply list_elem_of_fmap in Hin as (f2 & Heq & Hf2).
    rewrite Forall_forall in Hnames, Hlistings.
    destruct (Hnames c2 Hc2) as [Hne2 Hcs2].
    destruct (Hlistings c2 Hc2) as [Hnd2 Hall2].
    destruct (wav_files_of_listed _ _ _ Hnd2 Hall2) as [_ Hwall2].
    rewrite Forall_forall in Hwall2.
    apply sample_path_inj in Heq as [-> _]; auto.
  - by apply IH.
Qed.

Lemma load_audio_files_paths_nodup_witness :
  exists audio_paths labels w',
    load_audio_files Demo.commands "speech-commands/" (World Demo.files []) =
      (Ok (audio_paths, labels), w') /\
    NoDup audio_paths.
Proof.
  apply (load_audio_files_paths_nodup Demo.commands "speech-commands/"
                                      (World Demo.files []));
    apply (bool_decide_unpack _); vm_compute; exact I.
Defined.

(** ** The conversion: order, failure, what the clip keeps *)

Section Conversion.
Context `{Library}.

Lemma pad_or_truncate_normalized (audio : list sample) (w : world) :
  pad_or_truncate audio w = (Ok (normalized audio), w).
Proof. apply pad_or_truncate_run. Qed.

Lemma normalized_length (audio : list sample) :
  length (normalized audio) = Z.to_nat 16000.
Proof. apply pad_or_truncate_length. Qed.

Lemma normalized_fixed (audio : list sample) :
  length audio = Z.to_nat 16000 -> normalized audio = audio.
Proof.
  intros Hlen. unfold normalized. rewrite take_ge by lia.
  replace (Z.to_nat 16000 - length audio) with 0 by lia. apply app_nil_r.
Qed.

(** X7: lines 79-81 applied twice give what they give once; samples after
    the first 16000 do not change the result; neither do zeros added at the
    end of a clip that stays within 16000 samples. *)
Theorem pad_or_truncate_keeps_one_second :
  (forall (audio : list sample) (w : world),
      exists clip,
        pad_or_truncate audio w = (Ok clip, w) /\
        pad_or_truncate clip w = (Ok clip, w)) /\
  (forall (audio extra : list sample) (w : world),
      Z.to_nat 16000 <= length audio ->
      pad_or_truncate (audio ++ extra) w = pad_or_truncate audio w) /\
  (forall (audio : list sample) (k : nat) (w : world),
      length audio + k <= Z.to_nat 16000 ->
      pad_or_truncate (audio ++ replicate k zero) w = pad_or_truncate audio w).
Proof.
  split; [|split].
  - intros audio w. exists (normalized audio).
    rewrite !pad_or_truncate_normalized.
    by rewrite (normalized_fixed _ (normalized_length audio)).
  - intros audio extra w Hlen. rewrite !pad_or_truncate_normalized.
    unfold normalized. rewrite take_app_le by lia. rewrite length_app.
    by replace (Z.to_nat 16000 - (length audio + length extra))
      with (Z.to_nat 16000 - length audio) by lia.
  - intros audio k w Hlen. rewrite !pad_or_truncate_normalized.
    unfold normalized.
    rewrite !take_ge by (rewrite ?length_app, ?length_replicate; lia).
    rewrite length_app, length_replicate, <- app_assoc, <- replicate_add.
    repeat f_equal. lia.
Qed.

Lemma append_spectrogram_run (path : string) (spectrograms : list spectrogram)
    (w : world) :
  append_spectrogram path spectrograms w =
  match conversion_error (fs w) path with
  | Some e => (Raise e, World (fs w) (log w ++ [EReadFile path]))
  | None =>
      (Ok (spectrograms ++
           [spectrogram_of (default [] (mono_clip (fs w) path))]),
       World (fs w) (log w ++ [EReadFile path; EStft path]))
  end.
Proof.
  unfold append_spectrogram, tf_io_read_file, tf_audio_decode_wav,
    tf_squeeze, get_fs, emit, conversion_error, mono_clip.
  unfold bind at 1 2 3 4 5. cbn [fs log ret raise].
  destruct (fs w !! path) as [[content|]|]; cbn [ret raise]; try done.
  destruct (decode_wav content) as [[channels rows]|];
    cbn [ret raise fst snd]; try done.
  destruct (Nat.eqb channels 1); cbn [ret raise]; try done.
  unfold bind. rewrite !pad_or_truncate_normalized. cbn [ret fs log default].
  by rewrite <- app_assoc.
Qed.

Lemma mono_clip_no_error (f : filesystem) (path : string) (clip : list sample) :
  mono_clip f path = Some clip -> conversion_error f path = None.
Proof.
  unfold mono_clip, conversion_error.
  destruct (f !! path) as [[content|]|]; try done.
  destruct (decode_wav content) as [[channels rows]|]; try done.
  by destruct (Nat.eqb channels 1).
Qed.

Lemma spectrogram_loop_ok (paths : list string) (clips : list (list sample))
    (spectrograms : list spectrogram) (w : world) :
  Forall2 (fun p clip => mono_clip (fs w) p = Some clip) paths clips ->
  for_each paths append_spectrogram spectrograms w =
  (Ok (spectrograms ++ map spectrogram_of clips),
   World (fs w) (log w ++ convert_events paths)).
Proof.
  intros Hall. revert clips spectrograms w Hall.
  induction paths as [|p paths IH]; intros clips spectrograms w Hall.
  - apply Forall2_nil_inv_l in Hall as ->. cbn [for_each map convert_events flat_map].
    rewrite !app_nil_r. by destruct w.
  - apply Forall2_cons_inv_l in Hall as (clip & clips' & Hclip & Hall & ->).
    cbn [for_each]. unfold bind.
    rewrite append_spectrogram_run, (mono_clip_no_error _ _ _ Hclip), Hclip.
    cbn [default]. rewrite (IH clips') by exact Hall. cbn [fs log map].
    unfold convert_events. cbn [flat_map app].
    by rewrite <- !app_assoc.
Qed.

(** X8: when every path holds a one-channel clip, the result is the
    spectrogram of each clip, in the order of the paths: entry [k] comes
    from path [k] alone, each file is read once, and the file system is left
    as it was. *)
Theorem paths_to_spectrograms_in_order (paths : list string)
    (clips : list (list sample)) (w : world) :
  Forall2 (fun p clip => mono_clip (fs w) p = Some clip) paths clips ->
  paths_to_spectrograms paths w =
  (Ok (map spectrogram_of clips),
   World (fs w) (log w ++ convert_events paths)).
Proof. intros Hall. by apply (spectrogram_loop_ok paths clips []). Qed.

Lemma spectrogram_loop_fails (done_paths later_paths : list string)
    (path : string) (clips : list (list sample)) (e : exn)
    (spectrograms : list spectrogram) (w : world) :
  Forall2 (fun p clip => mono_clip (fs w) p = Some clip) done_paths clips ->
  conversion_error (fs w) path = Some e ->
  for_each (done_paths ++ path :: later_paths) append_spectrogram
           spectrograms w =
  (Raise e,
   World (fs w) (log w ++ convert_events done_paths ++ [EReadFile path])).
Proof.
  intros Hall Herr. revert clips w Hall Herr spectrograms.
  induction done_paths as [|p done_paths IH];
    intros clips w Hall Herr spectrograms.
  - cbn [app for_each]. unfold bind. by rewrite append_spectrogram_run, Herr.
  - apply Forall2_cons_inv_l in Hall as (clip & clips' & Hclip & Hall & ->).
    cbn [app for_each]. unfold bind.
    rewrite append_spectrogram_run, (mono_clip_no_error _ _ _ Hclip).
    rewrite (IH clips') by (exact Hall || exact Herr). cbn [fs log].
    unfold convert_events. cbn [flat_map app]. by rewrite <- !app_assoc.
Qed.

(** X9: the conversion stops at the first path it cannot convert (a missing
    file, an undecodable one, one with more or fewer channels than one): it
    raises that path's exception, the spectrograms made so far are lost, and
    no later path is read. *)
Theorem paths_to_spectrograms_stops_at_first_failure
    (done_paths later_paths : list string) (path : string)
    (clips : list (list sample)) (e : exn) (w : world) :
  Forall2 (fun p clip => mono_clip (fs w) p = Some clip) done_paths clips ->
  conversion_error (fs w) path = Some e ->
  paths_to_spectrograms (done_paths ++ path :: later_paths) w =
  (Raise e,
   World (fs w) (log w ++ convert_events done_paths ++ [EReadFile path])).
Proof.
  intros Hall Herr. by apply (spectrogram_loop_fails _ _ _ clips).
Qed.


Lemma no_error_mono_clip (f : filesystem) (path : string) :
  conversion_error f path = None -> exists clip, mono_clip f path = Some clip.
Proof.
  unfold mono_clip, conversion_error.
  destruct (f !! path) as [[content|]|]; try done.
  destruct (decode_wav content) as [[channels rows]|]; try done.
  destruct (Nat.eqb channels 1); [by eexists | done].
Qed.

(** Either every path converts, or there is a first one that does not. *)
Lemma first_conversion_error (f : filesystem) (paths : list string) :
  (exists clips, Forall2 (fun p clip => mono_clip f p = Some clip) paths clips) \/
  (exists done_paths path later_paths clips e,
      paths = done_paths ++ path :: later_paths /\
      Forall2 (fun p clip => mono_clip f p = Some clip) done_paths clips /\
      conversion_error f path = Some e).
Proof.
  induction paths as [|p paths IH].
  - left. exists []. constructor.
  - destruct (conversion_error f p) as [e|] eqn:Herr.
    + right. exists [], p, paths, [], e. repeat split; [constructor | done].
    + apply no_error_mono_clip in Herr as [clip Hclip].
      destruct IH as [(clips & Hall) |
                      (done_paths & path & later & clips & e & -> & Hall & He)].
      * left. exists (clip :: clips). by constructor.
      * right. exists (p :: done_paths), path, later, (clip :: clips), e.
        repeat split; [by constructor | done].
Qed.

Lemma paths_to_spectrograms_cases (paths : list string) (w : world) :
  (exists clips,
      Forall2 (fun p clip => mono_clip (fs w) p = Some clip) paths clips /\
      paths_to_spectrograms paths w =
      (Ok (map spectrogram_of clips),
       World (fs w) (log w ++ convert_events paths))) \/
  (exists e events p,
      p ∈ paths /\ conversion_error (fs w) p = Some e /\
      paths_to_spectrograms paths w = (Raise e, World (fs w) (log w ++ events))).
Proof.
  destruct (first_conversion_error (fs w) paths)
    as [(clips & Hall) |
        (done_paths & path & later & clips & e & -> & Hall & He)].
  - left. exists clips. split; [done|].
    by apply (spectrogram_loop_ok paths clips []).
  - right. exists e, (convert_events done_paths ++ [EReadFile path]), path.
    split; [set_solver|]. split; [done|].
    by apply (spectrogram_loop_fails _ _ _ clips).
Qed.

Lemma spectrogram_of_shape (clip : list sample) :
  has_shape3 124 129 1 (spectrogram_of clip).
Proof. apply stft_shape, normalized_length. Qed.

Lemma spectrograms_of_shape (clips : list (list sample)) :
  Forall (has_shape3 124 129 1) (map spectrogram_of clips).
Proof. apply Forall_fmap, Forall_forall. intros clip _. apply spectrogram_of_shape. Qed.

End Conversion.

Lemma paths_to_spectrograms_in_order_witness :
  @paths_to_spectrograms Demo.library
    ["speech-commands/yes/a.wav"; "speech-commands/no/f.wav"]
    (World Demo.files []) =
  (Ok (map (@spectrogram_of Demo.library)
           [[97; 98; 99]%Z; [102; 103; 104]%Z]),
   World Demo.files
     ([] ++ convert_events
              ["speech-commands/yes/a.wav"; "speech-commands/no/f.wav"])).
Proof.
  apply (@paths_to_spectrograms_in_order Demo.library
           ["speech-commands/yes/a.wav"; "speech-commands/no/f.wav"]
           [[97; 98; 99]%Z; [102; 103; 104]%Z] (World Demo.files [])).
  repeat constructor.
Defined.

Lemma paths_to_spectrograms_stops_at_first_failure_witness :
  @paths_to_spectrograms Demo.library
    (["speech-commands/yes/a.wav"] ++
     "speech-commands/yes/lost.wav" :: ["speech-commands/no/f.wav"])
    (World Demo.files []) =
  (Raise (OSError "speech-commands/yes/lost.wav"),
   World Demo.files
     ([] ++ convert_events ["speech-commands/yes/a.wav"] ++
      [EReadFile "speech-commands/yes/lost.wav"])).
Proof.
  apply (@paths_to_spectrograms_stops_at_first_failure Demo.library
           ["speech-commands/yes/a.wav"] ["speech-commands/no/f.wav"]
           "speech-commands/yes/lost.wav" [[97; 98; 99]%Z]
           (OSError "speech-commands/yes/lost.wav") (World Demo.files [])).
  - repeat constructor.
  - vm_compute. reflexivity.
Defined.

(** ** The script: how it fails, what it builds, what it saves *)

Ltac flat_log := repeat (progress cbn [app log fs] || rewrite <- app_assoc).
Ltac flat_log_in H :=
  repeat (progress cbn [app log fs] in H || rewrite <- app_assoc in H).

Section Endings.
Context `{Library}.

(** Every way the script ends, with what the split and the conversion
    gave. *)
Lemma script_cases (f : filesystem) (r : result unit) (w' : world) :
  script (World f []) = (r, w') ->
  match r with
  | Raise e =>
      fs w' = f /\
      ((e = OSError "commands_list.txt" /\
        forall content, f !! "commands_list.txt" <> Some (File content)) \/
       e = ValueError_no_samples \/
       (e = SplitError /\
        exists content,
          let samples :=
            expected_samples f (splitlines content) DATASET_PATH in
          f !! "commands_list.txt" = Some (File content) /\
          train_test_split (map fst samples) (map snd samples)
            (Q2Qc (2 # 10)) seed (map snd samples) = None) \/
       (e = FitError /\
        exists model x y val_x val_y, fit model x y val_x val_y 20 32 = None) \/
       exists content train_paths val_paths train_labels val_labels p,
         let samples :=
           expected_samples f (splitlines content) DATASET_PATH in
         f !! "commands_list.txt" = Some (File content) /\
         train_test_split (map fst samples) (map snd samples)
           (Q2Qc (2 # 10)) seed (map snd samples) =
           Some (train_paths, val_paths, train_labels, val_labels) /\
         p ∈ train_paths ++ val_paths /\
         conversion_error f p = Some e)
  | Ok _ =>
      exists content train_paths val_paths train_labels val_labels
             clips_train clips_val model,
        let commands := splitlines content in
        let samples := expected_samples f commands DATASET_PATH in
        let train := map spectrogram_of clips_train in
        let val := map spectrogram_of clips_val in
        f !! "commands_list.txt" = Some (File content) /\
        train_test_split (map fst samples) (map snd samples)
          (Q2Qc (2 # 10)) seed (map snd samples) =
          Some (train_paths, val_paths, train_labels, val_labels) /\
        Forall2 (fun p clip => mono_clip f p = Some clip)
                train_paths clips_train /\
        Forall2 (fun p clip => mono_clip f p = Some clip)
                val_paths clips_val /\
        fit (Compiled (create_binary_model (tail (stacked_shape train))
                                           (length commands))
                      "adam" "sparse_categorical_crossentropy" ["accuracy"])
            train train_labels val val_labels 20 32 = Some model /\
        w' = World (<["binary_kws_model.h5" := File (serialize model)]> f)
                   (successful_log f commands train_paths val_paths train val)
  end.
Proof.
  intros Hrun. unfold script, print in Hrun.
  rewrite bind_unfold in Hrun. cbn [emit fs log] in Hrun.
  rewrite bind_unfold, read_commands_run in Hrun. cbn [fs log] in Hrun.
  destruct (f !! "commands_list.txt") as [[content|]|] eqn:Hfile;
    try (injection Hrun as <- <-; split; [done|]; left; by split).
  rewrite bind_unfold in Hrun. cbn [emit fs log] in Hrun.
  rewrite bind_unfold, load_audio_files_run in Hrun. cbn [fs log] in Hrun.
  rewrite bind_unfold in Hrun. cbn [emit fs log] in Hrun.
  rewrite bind_unfold, length_map in Hrun.
  pose proof (loading_events_app f (splitlines content)) as Hload.
  destruct (expected_samples f (splitlines content) DATASET_PATH)
    as [|s samples] eqn:Hs.
  { cbn [length Nat.eqb raise] in Hrun. injection Hrun as <- <-.
    split; [done|]. right; by left. }
  cbn [length Nat.eqb ret] in Hrun.
  rewrite bind_unfold, split_run in Hrun. rewrite length_map in Hrun.
  flat_log_in Hrun.
  destruct (train_test_split _ _ _ _ _)
    as [[[[train_paths val_paths] train_labels] val_labels]|] eqn:Hsplit.
  2:{ injection Hrun as <- <-. split; [done|]. right; right; left.
      split; [done|]. exists content. cbv zeta. by rewrite Hs. }
  rewrite bind_unfold in Hrun. cbn [emit fs log] in Hrun.
  rewrite bind_unfold in Hrun.
  match type of Hrun with
  | context [paths_to_spectrograms train_paths ?w0] =>
      destruct (paths_to_spectrograms_cases train_paths w0)
        as [(clips_train & Hall1 & Hrun1) | (e & ev & p & Hp & Herr & Hrun1)];
      rewrite Hrun1 in Hrun; clear Hrun1; cbn [fs log] in *
  end.
  2:{ injection Hrun as <- <-. split; [done|]. do 4 right.
      exists content, train_paths, val_paths, train_labels, val_labels, p.
      cbv zeta. rewrite Hs. repeat split; try done.
      apply elem_of_app. by left. }
  rewrite bind_unfold in Hrun.
  match type of Hrun with
  | context [paths_to_spectrograms val_paths ?w0] =>
      destruct (paths_to_spectrograms_cases val_paths w0)
        as [(clips_val & Hall2 & Hrun2) | (e & ev & p & Hp & Herr & Hrun2)];
      rewrite Hrun2 in Hrun; clear Hrun2; cbn [fs log] in *
  end.
  2:{ injection Hrun as <- <-. split; [done|]. do 4 right.
      exists content, train_paths, val_paths, train_labels, val_labels, p.
      cbv zeta. rewrite Hs. repeat split; try done.
      apply elem_of_app. by right. }
  rewrite bind_unfold, (tf_stack_run _ _ (spectrograms_of_shape clips_train))
    in Hrun.
  rewrite bind_unfold, (tf_stack_run _ _ (spectrograms_of_shape clips_val))
    in Hrun.
  cbn [fs log] in Hrun.
  do 7 (rewrite bind_unfold in Hrun; cbn [emit fs log] in Hrun).
  rewrite bind_unfold, model_fit_run in Hrun. cbn [fs log] in Hrun.
  flat_log_in Hrun.
  destruct (fit _ _ _ _ _ _ _) as [model|] eqn:Hfit.
  2:{ injection Hrun as <- <-. split; [done|]. do 3 right. left.
      split; [done|]. by eexists _, _, _, _, _. }
  unfold model_save in Hrun.
  rewrite !bind_unfold in Hrun. cbn [emit write_file fs log] in Hrun.
  flat_log_in Hrun. injection Hrun as <- <-.
  exists content, train_paths, val_paths, train_labels, val_labels,
    clips_train, clips_val, model.
  cbv zeta. rewrite Hs. split; [done|]. split; [done|].
  split; [done|]. split; [done|]. split; [done|].
  f_equal. unfold successful_log. rewrite Hload, Hs.
  unfold training_events. by flat_log.
Qed.

(** X10: when the script raises, the file system is as it was before the
    run: the model file is written only after every earlier step has
    succeeded. *)
Theorem script_failure_writes_nothing (f : filesystem) (e : exn) (w' : world) :
  script (World f []) = (Raise e, w') -> fs w' = f.
Proof. intros Hrun. by apply script_cases in Hrun as [? _]. Qed.


(** X12: without a readable commands file the script raises at once: it
    has printed the GPU count and tried to open the file, and has scanned no
    directory. *)
Theorem script_without_commands_file (f : filesystem) :
  (forall content, f !! "commands_list.txt" <> Some (File content)) ->
  script (World f []) =
  (Raise (OSError "commands_list.txt"),
   World f [EPrint MsgNumGpus; EOpen "commands_list.txt"]).
Proof.
  intros Hmissing.
  destruct (script (World f [])) as [r w'] eqn:Hrun.
  apply script_outcome in Hrun.
  destruct (f !! "commands_list.txt") as [[content|]|] eqn:Hfile.
  - by destruct (Hmissing content).
  - by destruct Hrun as [-> ->].
  - by destruct Hrun as [-> ->].
Qed.

Lemma stacked_shape_spectrograms (clips : list (list sample)) :
  clips <> [] ->
  stacked_shape (map spectrogram_of clips) = [length clips; 124; 129; 1].
Proof.
  destruct clips as [|clip clips]; [done|]. intros _.
  cbn [map stacked_shape]. rewrite (has_shape3_shape3 _ (spectrogram_of_shape clip)).
  cbn [length]. by rewrite length_map.
Qed.

(** X13: on a run that ends without an exception and whose split has a
    non-empty training side, the training tensor has shape
    (n, 124, 129, 1) for the n training paths and the model is built for
    input shape (124, 129, 1) and [len(commands)] classes. *)
Theorem model_input_shape (f : filesystem) (w' : world) :
  script (World f []) = (Ok tt, w') ->
  exists content train_paths val_paths train_labels val_labels,
    let commands := splitlines content in
    let samples := expected_samples f commands DATASET_PATH in
    f !! "commands_list.txt" = Some (File content) /\
    train_test_split (map fst samples) (map snd samples)
      (Q2Qc (2 # 10)) seed (map snd samples) =
      Some (train_paths, val_paths, train_labels, val_labels) /\
    (train_paths <> [] ->
     EPrint (MsgTrainShape [length train_paths; 124; 129; 1]) ∈ log w' /\
     EBuild (create_binary_model [124; 129; 1] (length commands)) ∈ log w').
Proof.
  intros Hrun. apply script_cases in Hrun
    as (content & train_paths & val_paths & train_labels & val_labels &
        clips_train & clips_val & model & Hfile & Hsplit & Hall1 & _ & _ & ->).
  exists content, train_paths, val_paths, train_labels, val_labels.
  cbv zeta. split; [done|]. split; [done|]. intros Hne.
  assert (clips_train <> []) as Hclips.
  { intros ->. by apply Forall2_nil_inv_r in Hall1. }
  cbn [log]. unfold successful_log, training_events.
  rewrite (stacked_shape_spectrograms _ Hclips).
  rewrite <- (Forall2_length _ _ _ Hall1). cbn [tail]. set_solver.
Qed.

Lemma read_path_scan (f : filesystem) (dataset_path : string)
    (commands : list string) :
  omap read_path (flat_map (scan_events f dataset_path) commands) = [].
Proof.
  induction commands as [|c commands IH]; [done|].
  cbn [flat_map]. rewrite omap_app, IH, app_nil_r. unfold scan_events.
  destruct (fs_isdir f (Os.path_join dataset_path c)); [|done].
  by destruct (_ =? 0).
Qed.

Lemma read_path_convert (paths : list string) :
  omap read_path (convert_events paths) = paths.
Proof.
  unfold convert_events. induction paths as [|p paths IH]; [done|].
  cbn [flat_map app].
  change (omap read_path (EReadFile p :: EStft p :: ?l))
    with (p :: omap read_path l).
  by rewrite IH.
Qed.

(** X14: on a run that ends without an exception the clips read are
    exactly the paths the split returned, each once, the training side
    first and the validation side after it. *)
Theorem script_reads_the_split (f : filesystem) (w' : world) :
  script (World f []) = (Ok tt, w') ->
  exists content train_paths val_paths train_labels val_labels,
    let samples := expected_samples f (splitlines content) DATASET_PATH in
    f !! "commands_list.txt" = Some (File content) /\
    train_test_split (map fst samples) (map snd samples)
      (Q2Qc (2 # 10)) seed (map snd samples) =
      Some (train_paths, val_paths, train_labels, val_labels) /\
    omap read_path (log w') = train_paths ++ val_paths.
Proof.
  intros Hrun. apply script_cases in Hrun
    as (content & train_paths & val_paths & train_labels & val_labels &
        clips_train & clips_val & model & Hfile & Hsplit & _ & _ & _ & ->).
  exists content, train_paths, val_paths, train_labels, val_labels.
  cbv zeta. split; [done|]. split; [done|].
  cbn [log]. unfold successful_log, loading_events.
  rewrite !omap_app, read_path_scan. cbn [app].
  change (omap read_path (ESplit ?n :: EPrint ?m :: ?l))
    with (omap read_path l).
  rewrite !omap_app, !read_path_convert. simpl. by rewrite app_nil_r.
Qed.

(** X15: on a run that ends without an exception the file saved is the
    serialization of what [model.fit] returned for the compiled model
    (adam, sparse categorical cross-entropy, accuracy), the spectrograms and
    labels of the training side of the split, those of the validation side,
    20 epochs and batches of 32. *)
Theorem saved_model_is_the_fit (f : filesystem) (w' : world) :
  script (World f []) = (Ok tt, w') ->
  exists content train_paths val_paths train_labels val_labels
         clips_train clips_val model,
    let commands := splitlines content in
    let samples := expected_samples f commands DATASET_PATH in
    let train := map spectrogram_of clips_train in
    let val := map spectrogram_of clips_val in
    f !! "commands_list.txt" = Some (File content) /\
    train_test_split (map fst samples) (map snd samples)
      (Q2Qc (2 # 10)) seed (map snd samples) =
      Some (train_paths, val_paths, train_labels, val_labels) /\
    Forall2 (fun p clip => mono_clip f p = Some clip)
            train_paths clips_train /\
    Forall2 (fun p clip => mono_clip f p = Some clip) val_paths clips_val /\
    fit (Compiled (create_binary_model (tail (stacked_shape train))
                                       (length commands))
                  "adam" "sparse_categorical_crossentropy" ["accuracy"])
        train train_labels val val_labels 20 32 = Some model /\
    fs w' !! "binary_kws_model.h5" = Some (File (serialize model)).
Proof.
  intros Hrun. apply script_cases in Hrun
    as (content & train_paths & val_paths & train_labels & val_labels &
        clips_train & clips_val & model & Hfile & Hsplit & Hall1 & Hall2 &
        Hfit & ->).
  exists content, train_paths, val_paths, train_labels, val_labels,
    clips_train, clips_val, model.
  cbv zeta. repeat (split; [done|]). cbn [fs]. apply lookup_insert_eq.
Qed.


End Endings.

Lemma script_failure_writes_nothing_witness :
  fs (@script Demo.library
        (World (<["speech-commands/yes/b.wav" := File "Stereo"]> Demo.files)
               [])).2 =
  <["speech-commands/yes/b.wav" := File "Stereo"]> Demo.files.
Proof.
  apply (@script_failure_writes_nothing Demo.library
           (<["speech-commands/yes/b.wav" := File "Stereo"]> Demo.files)
           (SqueezeError "speech-commands/yes/b.wav")).
  vm_compute. reflexivity.
Defined.


Lemma script_without_commands_file_witness :
  @script Demo.library (World ∅ []) =
  (Raise (OSError "commands_list.txt"),
   World ∅ [EPrint MsgNumGpus; EOpen "commands_list.txt"]).
Proof.
  apply (@script_without_commands_file Demo.library ∅).
  intros content. by rewrite lookup_empty.
Defined.

Lemma model_input_shape_witness :
  exists content train_paths val_paths train_labels val_labels,
    let commands := @splitlines Demo.library content in
    let samples := expected_samples Demo.files commands DATASET_PATH in
    Demo.files !! "commands_list.txt" = Some (File content) /\
    @train_test_split Demo.library (map fst samples) (map snd samples)
      (Q2Qc (2 # 10)) seed (map snd samples) =
      Some (train_paths, val_paths, train_labels, val_labels) /\
    (train_paths <> [] ->
     EPrint (MsgTrainShape [length train_paths; 124; 129; 1])
       ∈ log Demo.final /\
     EBuild (create_binary_model [124; 129; 1] (length commands))
       ∈ log Demo.final).
Proof.
  apply (@model_input_shape Demo.library Demo.files Demo.final).
  vm_compute. reflexivity.
Defined.

Lemma script_reads_the_split_witness :
  exists content train_paths val_paths train_labels val_labels,
    let samples :=
      expected_samples Demo.files (@splitlines Demo.library content)
                       DATASET_PATH in
    Demo.files !! "commands_list.txt" = Some (File content) /\
    @train_test_split Demo.library (map fst samples) (map snd samples)
      (Q2Qc (2 # 10)) seed (map snd samples) =
      Some (train_paths, val_paths, train_labels, val_labels) /\
    omap read_path (log Demo.final) = train_paths ++ val_paths.
Proof.
  apply (@script_reads_the_split Demo.library Demo.files Demo.final).
  vm_compute. reflexivity.
Defined.

Lemma saved_model_is_the_fit_witness :
  exists content train_paths val_paths train_labels val_labels
         clips_train clips_val model,
    let commands := @splitlines Demo.library content in
    let samples := expected_samples Demo.files commands DATASET_PATH in
    let train := map (@spectrogram_of Demo.library) clips_train in
    let val := map (@spectrogram_of Demo.library) clips_val in
    Demo.files !! "commands_list.txt" = Some (File content) /\
    @train_test_split Demo.library (map fst samples) (map snd samples)
      (Q2Qc (2 # 10)) seed (map snd samples) =
      Some (train_paths, val_paths, train_labels, val_labels) /\
    Forall2 (fun p clip => @mono_clip Demo.library Demo.files p = Some clip)
            train_paths clips_train /\
    Forall2 (fun p clip => @mono_clip Demo.library Demo.files p = Some clip)
            val_paths clips_val /\
    @fit Demo.library
        (Compiled (create_binary_model (tail (stacked_shape train))
                                       (length commands))
                  "adam" "sparse_categorical_crossentropy" ["accuracy"])
        train train_labels val val_labels 20 32 = Some model /\
    fs Demo.final !! "binary_kws_model.h5" =
      Some (File (@serialize Demo.library model)).
Proof.
  apply (@saved_model_is_the_fit Demo.library Demo.files Demo.final).
  vm_compute. reflexivity.
Defined.

